(** * PASC PRO, Streamlit front end: a shallow embedding of [streamlit_app.py]

    The program is a single Streamlit script.  Each user interaction re-runs
    the script from the top against the session's [session_state], the shared
    user table, the audit file and the mail transport.  The embedding follows
    that shape: the script is a computation in a state-and-exception monad over
    a [World]; the widgets' values and the environment's answers for one run
    (clock, SMTP outcome, whether the audit file can be written, the fresh
    TOTP secret) are inputs of the run.

    Python [str] values are byte strings here (the UTF-8 encoding of the
    text); [strip] and [lower] are given for ASCII text.  The third-party
    libraries the script calls (hmac/hashlib, itsdangerous, pyotp) are not
    part of the repository: their primitives are the fields of [Lib], and the
    token format of itsdangerous and the window of pyotp are written out
    over those primitives.

    Two operations of the environment can fail in the model, as the script
    has to live with both: sending the mail and writing the audit file.  The
    database is taken to answer, and the user table is a finite map from
    email (the column is unique) to row. *)

From Stdlib Require Import ZArith String Ascii List Lia Bool.
From stdpp Require Import base option strings gmap pretty.
Import ListNotations.
Local Open Scope string_scope.
Local Open Scope list_scope.
Local Open Scope Z_scope.
Set Warnings "-register-all".

(** ** Python runtime pieces *)

Module Py.

(** ASCII characters for which [str.isspace] holds. *)
Definition isspace (c : ascii) : bool :=
  let n := N_of_ascii c in
  ((9 <=? n) && (n <=? 13) || (28 <=? n) && (n <=? 32))%N.

Fixpoint lstrip (s : string) : string :=
  match s with
  | String c r => if isspace c then lstrip r else s
  | EmptyString => EmptyString
  end.

Fixpoint rstrip (s : string) : string :=
  match s with
  | String c r =>
      match rstrip r with
      | EmptyString => if isspace c then EmptyString else String c EmptyString
      | r' => String c r'
      end
  | EmptyString => EmptyString
  end.

(** [s.strip()] *)
Definition strip (s : string) : string := rstrip (lstrip s).

Definition lower_char (c : ascii) : ascii :=
  let n := N_of_ascii c in
  if ((65 <=? n) && (n <=? 90))%N then ascii_of_N (n + 32) else c.

(** [s.lower()] *)
Fixpoint lower (s : string) : string :=
  match s with
  | String c r => String (lower_char c) (lower r)
  | EmptyString => EmptyString
  end.

(** Truth value of a [str]: the empty string is false. *)
Definition truthy_str (s : string) : bool :=
  match s with EmptyString => false | _ => true end.

(** Exceptions the script can meet.  [BadTimeSignature] and
    [SignatureExpired] are subclasses of [BadSignature]; [BadPayload] is a
    subclass of [BadData] only. *)
Inductive exn : Type :=
| RuntimeError
| OSError
| SMTPException
| AttributeError
| BadSignature
| BadTimeSignature
| SignatureExpired
| BadPayload
| RerunException
| StopException.

Definition exn_eqb (a b : exn) : bool :=
  match a, b with
  | RuntimeError, RuntimeError | OSError, OSError
  | SMTPException, SMTPException | AttributeError, AttributeError
  | BadSignature, BadSignature | BadTimeSignature, BadTimeSignature
  | SignatureExpired, SignatureExpired | BadPayload, BadPayload
  | RerunException, RerunException | StopException, StopException => true
  | _, _ => false
  end.

(** [isinstance(e, BadSignature)] *)
Definition is_BadSignature (e : exn) : bool :=
  match e with
  | BadSignature | BadTimeSignature | SignatureExpired => true
  | _ => false
  end.

(** [isinstance(e, SignatureExpired)] *)
Definition is_SignatureExpired (e : exn) : bool :=
  match e with SignatureExpired => true | _ => false end.

(** [isinstance(e, Exception)]: Streamlit's script-control exceptions derive
    from [BaseException]. *)
Definition is_Exception (e : exn) : bool :=
  match e with
  | RerunException | StopException => false
  | _ => true
  end.

(** The result of evaluating a Python expression or statement. *)
Inductive outcome (A : Type) : Type :=
| Return (a : A)
| Raise (e : exn).
Arguments Return {A} a.
Arguments Raise {A} e.

End Py.
Export Py.

(** ** JSON values and [json.dumps] *)

Module Json.

Inductive json : Type :=
| JNull
| JBool (b : bool)
| JInt (z : Z)
| JStr (s : string)
| JList (l : list json)
| JDict (d : list (string * json)).

Definition quote : ascii := ascii_of_nat 34.
Definition backslash : ascii := ascii_of_nat 92.

Definition hex_digit (n : N) : ascii :=
  if (n <? 10)%N then ascii_of_N (48 + n) else ascii_of_N (87 + n).

(** One character of a string under [ensure_ascii=False]: the quote, the
    backslash and the control characters are escaped, everything else is
    copied. *)
Definition escape_char (c : ascii) : string :=
  let n := N_of_ascii c in
  if (n =? 34)%N then String backslash (String quote "")
  else if (n =? 92)%N then String backslash (String backslash "")
  else if (n =? 8)%N then String backslash "b"
  else if (n =? 12)%N then String backslash "f"
  else if (n =? 10)%N then String backslash "n"
  else if (n =? 13)%N then String backslash "r"
  else if (n =? 9)%N then String backslash "t"
  else if (n <? 32)%N then
    String backslash
      (String "u" (String "0" (String "0"
         (String (hex_digit (n / 16)) (String (hex_digit (n mod 16)) "")))))
  else String c "".

Fixpoint escape (s : string) : string :=
  match s with
  | String c r => escape_char c +:+ escape r
  | EmptyString => EmptyString
  end.

Definition encode_basestring (s : string) : string :=
  String quote (escape s) +:+ String quote "".

(** [json.dumps(j, ensure_ascii=False)] with the default separators. *)
Fixpoint dumps (j : json) : string :=
  match j with
  | JNull => "null"
  | JBool true => "true"
  | JBool false => "false"
  | JInt z => pretty z
  | JStr s => encode_basestring s
  | JList l =>
      "[" +:+
      (fix items (l : list json) : string :=
         match l with
         | [] => ""
         | [x] => dumps x
         | x :: r => dumps x +:+ ", " +:+ items r
         end) l +:+ "]"
  | JDict d =>
      "{" +:+
      (fix items (d : list (string * json)) : string :=
         match d with
         | [] => ""
         | [(k, v)] => encode_basestring k +:+ ": " +:+ dumps v
         | (k, v) :: r =>
             encode_basestring k +:+ ": " +:+ dumps v +:+ ", " +:+ items r
         end) d +:+ "}"
  end.

(** Truth value of a decoded JSON value ([None], [False], [0], [''], [[]]
    and [{}] are false). *)
Definition truthy (j : json) : bool :=
  match j with
  | JNull => false
  | JBool b => b
  | JInt z => negb (z =? 0)
  | JStr s => truthy_str s
  | JList l => match l with [] => false | _ => true end
  | JDict d => match d with [] => false | _ => true end
  end.

Fixpoint assoc (k : string) (d : list (string * json)) : option json :=
  match d with
  | [] => None
  | (k', v) :: r => if String.eqb k k' then Some v else assoc k r
  end.

(** [j.get(k)]: only a dict has the method; a missing key gives [None]. *)
Definition get (j : json) (k : string) : outcome json :=
  match j with
  | JDict d => Return (default JNull (assoc k d))
  | _ => Raise AttributeError
  end.

(** [j == s] for a [str] [s]. *)
Definition eq_str (j : json) (s : string) : bool :=
  match j with
  | JStr s' => String.eqb s' s
  | _ => false
  end.

End Json.
Export Json.

(** ** Library primitives

    The operations of the third-party libraries that the script relies on and
    that are not written out below.  Nothing is assumed about them here; a
    theorem that needs a property of one of them states it. *)

Class Lib : Type := {
  (** [hmac.new(key, msg, hashlib.sha256).hexdigest()] *)
  hmac_sha256_hexdigest : string -> string -> string;
  (** itsdangerous: the HMAC digest of a value under the key derived from the
      secret key and the serializer's salt. *)
  signer_digest : string -> string -> string;
  (** itsdangerous: URL-safe base64 without padding; decoding can fail. *)
  base64_encode : string -> string;
  base64_decode : string -> option string;
  (** itsdangerous: [URLSafeSerializerMixin.dump_payload] (compact JSON,
      compressed when that is shorter, base64) and [load_payload], whose
      failure ([None]) is reported as [BadPayload]. *)
  dump_payload : json -> string;
  load_payload : string -> option json;
  (** pyotp: [OTP.generate_otp], the code of a secret at a counter value. *)
  generate_otp : string -> Z -> string
}.

(** ** The token format of [URLSafeTimedSerializer] *)

Module Itsdangerous.

Definition sep : ascii := ".".

(** [s.rsplit(sep, 1)], or [None] when [sep not in s]. *)
Fixpoint rsplit_sep (s : string) : option (string * string) :=
  match s with
  | EmptyString => None
  | String c r =>
      match rsplit_sep r with
      | Some (a, b) => Some (String c a, b)
      | None => if Ascii.eqb c sep then Some (EmptyString, r) else None
      end
  end.

(** [int.from_bytes(s, "big")] *)
Definition bytes_to_int (s : string) : Z :=
  fold_left (fun acc c => acc * 256 + Z.of_N (N_of_ascii c))
    (list_ascii_of_string s) 0.

Fixpoint to_bytes (k : nat) (n : Z) : string :=
  match k with
  | O => EmptyString
  | S k' => to_bytes k' (n / 256) +:+ String (ascii_of_N (Z.to_N (n mod 256))) ""
  end.

Fixpoint lstrip_nul (s : string) : string :=
  match s with
  | String c r => if Ascii.eqb c zero then lstrip_nul r else s
  | EmptyString => EmptyString
  end.

(** [num.to_bytes(8, "big").lstrip(b"\x00")]; the clock's readings are
    non-negative and below [2^64]. *)
Definition int_to_bytes (n : Z) : string := lstrip_nul (to_bytes 8 n).

Section Signer.
Context {L : Lib}.
Variable secret_key : string.

(** [Signer.get_signature] *)
Definition get_signature (value : string) : string :=
  base64_encode (signer_digest secret_key value).

(** [Signer.verify_signature]: a signature that does not decode is
    rejected. *)
Definition verify_signature (value sig : string) : bool :=
  match base64_decode sig with
  | Some d => String.eqb d (signer_digest secret_key value)
  | None => false
  end.

(** [Signer.unsign]: the value, or [BadSignature] with its [payload]
    attribute. *)
Definition signer_unsign (signed_value : string) : string + option string :=
  match rsplit_sep signed_value with
  | None => inr None
  | Some (value, sig) =>
      if verify_signature value sig then inl value else inr (Some value)
  end.

(** [TimestampSigner.sign] at clock reading [now]. *)
Definition timestamp_sign (value : string) (now : Z) : string :=
  let timestamp := base64_encode (int_to_bytes now) in
  let value := value +:+ String sep timestamp in
  value +:+ String sep (get_signature value).

(** [TimestampSigner.unsign] with [max_age] at clock reading [now]. *)
Definition timestamp_unsign (signed_value : string) (max_age now : Z)
  : outcome string :=
  let '(sig_error, result) :=
    match signer_unsign signed_value with
    | inl value => (false, value)
    | inr payload => (true, default EmptyString payload)
    end in
  match rsplit_sep result with
  | None => if sig_error then Raise BadSignature else Raise BadTimeSignature
  | Some (value, ts_bytes) =>
      let ts_int := bytes_to_int <$> base64_decode ts_bytes in
      if sig_error then Raise BadTimeSignature
      else
        match ts_int with
        | None => Raise BadTimeSignature
        | Some ts =>
            let age := now - ts in
            if age >? max_age then Raise SignatureExpired
            else if age <? 0 then Raise SignatureExpired
            else Return value
        end
  end.

(** [URLSafeTimedSerializer.dumps] *)
Definition serializer_dumps (obj : json) (now : Z) : string :=
  timestamp_sign (dump_payload obj) now.

(** [URLSafeTimedSerializer.loads]: the signature and the age are checked
    before the payload is decoded. *)
Definition serializer_loads (s : string) (max_age now : Z) : outcome json :=
  match timestamp_unsign s max_age now with
  | Raise e => Raise e
  | Return base64d =>
      match load_payload base64d with
      | Some obj => Return obj
      | None => Raise BadPayload
      end
  end.

End Signer.

End Itsdangerous.

(** ** [pyotp.TOTP] *)

Module Pyotp.

Section Totp.
Context {L : Lib}.

Definition interval : Z := 30.

(** [TOTP.timecode]: the time step of a clock reading. *)
Definition timecode (for_time : Z) : Z := for_time / interval.

(** [TOTP.at(for_time, counter_offset)] *)
Definition at_ (secret : string) (for_time counter_offset : Z) : string :=
  generate_otp secret (timecode for_time + counter_offset).

(** The offsets [range(-valid_window, valid_window + 1)]. *)
Definition window (valid_window : Z) : list Z :=
  map (fun i => Z.of_nat i - valid_window)
    (seq 0 (Z.to_nat (2 * valid_window + 1))).

(** [TOTP.verify(otp, valid_window=w)] at clock reading [for_time].  The
    library compares normalised text in constant time; on the ASCII text of
    one-time codes that is equality. *)
Definition verify (secret otp : string) (valid_window for_time : Z) : bool :=
  if valid_window =? 0 then String.eqb otp (at_ secret for_time 0)
  else existsb (fun i => String.eqb otp (at_ secret for_time i))
         (window valid_window).

End Totp.

End Pyotp.

(** ** The application *)

Module UserModel.
(** A row of the [users] table. *)
Record t : Type := mk {
  id : Z;
  email : string;
  totp_secret : string;
  is_active : bool;
  created_at : string
}.
End UserModel.

Module App.

(** [SECRET_KEY] and [HMAC_KEY], read from the process environment. *)
Record Config : Type := {
  SECRET_KEY : string;
  HMAC_KEY : string
}.

(** Lines 24 to 27: [PASC_SECRET_KEY] is required; [PASC_HMAC_KEY] falls
    back to it. *)
Definition load_config (PASC_SECRET_KEY PASC_HMAC_KEY : option string)
  : outcome Config :=
  let secret := default EmptyString PASC_SECRET_KEY in
  if negb (truthy_str secret) then Raise RuntimeError
  else
    let h := default EmptyString PASC_HMAC_KEY in
    Return {| SECRET_KEY := secret;
              HMAC_KEY := if truthy_str h then h else secret |}.

(** [st.session_state] once lines 106 to 111 have filled in the defaults. *)
Record SessionState : Type := {
  email : string;
  pending_token : string;
  authenticated : bool
}.

Definition initial_session : SessionState :=
  {| email := ""; pending_token := ""; authenticated := false |}.

(** A line of the audit file: [{'record': record, 'hmac': signature}]. *)
Record AuditEntry : Type := {
  record : json;
  hmac : string
}.

(** The text written for an entry. *)
Definition entry_line (e : AuditEntry) : string :=
  dumps (JDict [("record", record e); ("hmac", JStr (hmac e))])
    +:+ String (ascii_of_nat 10) "".

(** A mail handed to the SMTP transport. *)
Record Message : Type := {
  subject : string;
  recipients : list string;
  body : string
}.

(** What the run has put on the page. *)
Inductive Element : Type :=
| st_success (text : string)
| st_info (text : string)
| st_error (text : string).

Record World : Type := {
  session_state : SessionState;
  users : gmap string UserModel.t;
  AUDIT_FILE : list AuditEntry;
  outbox : list Message;
  page : list Element
}.

(** The environment's answers during one run of the script. *)
Record Env : Type := {
  (** [int(time.time())], also the reading behind [datetime.now()] *)
  time_time : Z;
  (** [datetime.utcnow().isoformat()] *)
  utcnow_isoformat : string;
  (** whether [mail.send] goes through *)
  smtp_ok : bool;
  (** whether the audit file can be opened and written *)
  audit_writable : bool;
  (** the value [pyotp.random_base32()] returns *)
  random_base32 : string
}.

(** The widgets' values in one run. *)
Record Widgets : Type := {
  logout_button : bool;
  email_input : string;
  submit : bool;
  token_input : string;
  verify : bool
}.

(** *** Statements: state and exceptions *)

Definition M (A : Type) : Type := World -> outcome A * World.

#[export] Instance M_ret : MRet M := fun A a w => (Return a, w).

#[export] Instance M_bind : MBind M := fun A B f m w =>
  match m w with
  | (Return a, w') => f a w'
  | (Raise e, w') => (Raise e, w')
  end.

Definition raise {A : Type} (e : exn) : M A := fun w => (Raise e, w).

Definition lift {A : Type} (o : outcome A) : M A := fun w => (o, w).

(** [try: body  except <catches> as e: handler] *)
Definition try_except {A : Type} (body : M A) (catches : exn -> bool)
    (handler : exn -> M A) : M A := fun w =>
  match body w with
  | (Raise e, w') => if catches e then handler e w' else (Raise e, w')
  | r => r
  end.

Definition when (b : bool) (m : M unit) : M unit :=
  if b then m else mret tt.

Definition get_session : M SessionState := fun w => (Return (session_state w), w).

Definition set_session (f : SessionState -> SessionState) : M unit := fun w =>
  (Return tt,
   {| session_state := f (session_state w); users := users w;
      AUDIT_FILE := AUDIT_FILE w; outbox := outbox w; page := page w |}).

Definition set_email (v : string) : M unit :=
  set_session (fun s => {| email := v; pending_token := pending_token s;
                           authenticated := authenticated s |}).

Definition set_pending_token (v : string) : M unit :=
  set_session (fun s => {| email := email s; pending_token := v;
                           authenticated := authenticated s |}).

Definition set_authenticated (v : bool) : M unit :=
  set_session (fun s => {| email := email s; pending_token := pending_token s;
                           authenticated := v |}).

Definition show (el : Element) : M unit := fun w =>
  (Return tt,
   {| session_state := session_state w; users := users w;
      AUDIT_FILE := AUDIT_FILE w; outbox := outbox w;
      page := page w ++ [el] |}).

(** [db.query(UserModel).filter_by(email=email).first()] *)
Definition query_first (email : string) : M (option UserModel.t) := fun w =>
  (Return (users w !! email), w).

(** [db.add(user); db.commit()] for a row whose email is not in the table;
    the table assigns the next [id]. *)
Definition add_commit (email secret created : string) : M unit := fun w =>
  let user := UserModel.mk (Z.of_nat (size (users w)) + 1) email secret true
                created in
  (Return tt,
   {| session_state := session_state w; users := <[email := user]> (users w);
      AUDIT_FILE := AUDIT_FILE w; outbox := outbox w; page := page w |}).

Section Script.
Context {L : Lib}.
Variable cfg : Config.
Variable env : Env.

(** [sign_record] *)
Definition sign_record (record : string) : string :=
  hmac_sha256_hexdigest (HMAC_KEY cfg) record.

(** The [record] dict built by [audit]. *)
Definition audit_record (event : string) (details : list (string * json))
  : json :=
  JDict [("timestamp", JStr (utcnow_isoformat env +:+ "Z"));
         ("event", JStr event);
         ("details", JDict details)].

(** The line [audit] writes: the record and the tag of its serialization. *)
Definition audit_entry (event : string) (details : list (string * json))
  : AuditEntry :=
  let record := audit_record event details in
  let line := dumps record in
  let signature := sign_record line in
  {| record := record; hmac := signature |}.

(** [audit]: the entry is appended, or opening the file raises. *)
Definition audit (event : string) (details : list (string * json)) : M unit :=
  fun w =>
  if audit_writable env then
    (Return tt,
     {| session_state := session_state w; users := users w;
        AUDIT_FILE := AUDIT_FILE w ++ [audit_entry event details];
        outbox := outbox w; page := page w |})
  else (Raise OSError, w).

(** [generate_email_token] *)
Definition generate_email_token (email : string) : string :=
  Itsdangerous.serializer_dumps (SECRET_KEY cfg)
    (JDict [("email", JStr email); ("purpose", JStr "login")])
    (time_time env).

(** [verify_email_token]: [BadSignature] and its subclasses are turned
    into [None]; any other exception of [loads] propagates. *)
Definition verify_email_token (token : string) (max_age : Z)
  : outcome (option json) :=
  match Itsdangerous.serializer_loads (SECRET_KEY cfg) token max_age
          (time_time env) with
  | Return data => Return (Some data)
  | Raise e =>
      if is_BadSignature e || is_SignatureExpired e then Return None
      else Raise e
  end.

(** The default of [max_age]. *)
Definition default_max_age : Z := 600.

(** [send_email_token] *)
Definition send_email_token (email token : string) : M unit := fun w =>
  let msg :=
    {| subject := "Tu código de acceso PASC PRO";
       recipients := [email];
       body := "Usa este token para acceder (válido por unos minutos): "
                 +:+ token |} in
  if smtp_ok env then
    (Return tt,
     {| session_state := session_state w; users := users w;
        AUDIT_FILE := AUDIT_FILE w; outbox := outbox w ++ [msg];
        page := page w |})
  else (Raise SMTPException, w).

(** Lines 126 to 144, the body of [if submit:]. *)
Definition request_flow (email_in : string) : M unit :=
  let email := lower (strip email_in) in
  user ← query_first email;
  match user with
  | None => add_commit email (random_base32 env) (utcnow_isoformat env)
  | Some _ => mret tt
  end;;
  let token := generate_email_token email in
  try_except
    (send_email_token email token;;
     audit "request_access" [("email", JStr email)];;
     show (st_info "Se ha enviado un código a tu correo");;
     set_email email;;
     set_pending_token token)
    is_Exception
    (fun _ =>
       show (st_error "Error enviando el correo. Revisa configuración SMTP.")).

(** [payload and payload.get('email') == email] *)
Definition payload_matches (payload : option json) (email : string)
  : outcome bool :=
  match payload with
  | None => Return false
  | Some p =>
      if truthy p then
        match get p "email" with
        | Return v => Return (eq_str v email)
        | Raise e => Raise e
        end
      else Return false
  end.

(** Lines 151 to 182, the body of [if verify:]. *)
Definition verify_flow (token_in : string) : M unit :=
  let token_in := strip token_in in
  s ← get_session;
  let email := email s in
  if negb (truthy_str email) then
    show (st_error "Primero solicita acceso con tu correo.")
  else if String.eqb token_in (pending_token s) then
    payload ← lift (verify_email_token token_in default_max_age);
    ok ← lift (payload_matches payload email);
    if ok : bool then
      set_authenticated true;;
      audit "login_success" [("email", JStr email)];;
      raise RerunException
    else
      show (st_error "Token inválido o expirado");;
      audit "login_fail_token"
        [("submitted", JStr token_in); ("email", JStr email)]
  else
    user ← query_first email;
    match user with
    | Some user =>
        if Pyotp.verify (UserModel.totp_secret user) token_in 1 (time_time env)
        then
          set_authenticated true;;
          audit "login_success_totp" [("email", JStr email)];;
          raise RerunException
        else
          show (st_error "Código inválido");;
          audit "login_fail"
            [("submitted", JStr token_in); ("email", JStr email)]
    | None => show (st_error "Usuario no encontrado")
    end.

(** Lines 113 to 120, the body of [if session_state['authenticated']:]. *)
Definition logout_flow (clicked : bool) : M unit :=
  s ← get_session;
  show (st_success ("Conectado como " +:+ email s));;
  when clicked
    (audit "logout" [("email", JStr (email s))];;
     set_authenticated false;;
     set_email "";;
     set_pending_token "");;
  raise StopException.

(** One run of the script. *)
Definition script (wd : Widgets) : M unit :=
  s ← get_session;
  (if authenticated s then logout_flow (logout_button wd) else mret tt);;
  when (submit wd) (request_flow (email_input wd));;
  when (verify wd) (verify_flow (token_input wd)).

End Script.

(** The worlds a session can be in: it starts with the defaults of lines 106
    to 111 (the user table, the audit file and the mail sent so far are
    whatever other sessions left), and every interaction runs the script
    once. *)
Inductive reachable `{L : Lib} (cfg : Config) : World -> Prop :=
| reachable_start (w : World) :
    session_state w = initial_session -> reachable cfg w
| reachable_run (w : World) (env : Env) (wd : Widgets) :
    reachable cfg w -> reachable cfg (snd (script cfg env wd w)).

(** The pending token is absent or was issued for the session's email. *)
Definition pending_issued `{L : Lib} (cfg : Config) (s : SessionState) : Prop :=
  pending_token s = ""
  \/ exists issued,
       pending_token s
       = Itsdangerous.serializer_dumps (SECRET_KEY cfg)
           (JDict [("email", JStr (email s)); ("purpose", JStr "login")])
           issued.

(** An authenticated session has an email on file. *)
Definition has_email (s : SessionState) : Prop :=
  authenticated s = true -> truthy_str (email s) = true.

(** The check a holder of the key makes on an entry of the audit file: the
    tag is recomputed from the entry's record and compared with the stored
    one.  The script only writes entries; this is the reader's side. *)
Definition entry_verifies `{L : Lib} (cfg : Config) (e : AuditEntry) : bool :=
  String.eqb (hmac e) (sign_record cfg (dumps (record e))).

End App.

(** ** Reading a token

    The three parts of a token as [loads] sees them.  They are not functions of
    the script: the statements about [verify_email_token] are phrased with
    them. *)

Module Token.
Import Itsdangerous.

Section Observers.
Context {L : Lib}.
Variable key : string.

(** Whether the tag at the end of the token is the one of the text
    before it. *)
Definition token_tag_ok (token : string) : bool :=
  match rsplit_sep token with
  | Some (value, sig) => verify_signature key value sig
  | None => false
  end.

(** The issuance time carried by the token, when it has one that
    decodes. *)
Definition token_issued (token : string) : option Z :=
  match rsplit_sep token with
  | Some (value, _) =>
      match rsplit_sep value with
      | Some (_, ts) => bytes_to_int <$> base64_decode ts
      | None => None
      end
  | None => None
  end.

(** The payload carried by the token, when it decodes. *)
Definition token_payload (token : string) : option json :=
  match rsplit_sep token with
  | Some (value, _) =>
      match rsplit_sep value with
      | Some (p, _) => load_payload p
      | None => None
      end
  | None => None
  end.

End Observers.

End Token.

(** ** An executable stand-in for the library primitives

    The script can be run on concrete inputs once the primitives are given.
    [Sample] picks simple ones: digests that keep their whole input, a
    two-letter-per-byte encoding in place of base64, a payload format for
    flat dicts of strings, and one-time codes that print the counter. *)

Module Sample.

Definition nibble (n : N) : ascii := ascii_of_N (97 + n).

Fixpoint encode (s : string) : string :=
  match s with
  | String c r =>
      let n := N_of_ascii c in
      String (nibble (n / 16)) (String (nibble (n mod 16)) (encode r))
  | EmptyString => EmptyString
  end.

Definition unnibble (c : ascii) : option N :=
  let n := N_of_ascii c in
  if ((97 <=? n) && (n <? 113))%N then Some (n - 97)%N else None.

Fixpoint decode (s : string) : option string :=
  match s with
  | EmptyString => Some EmptyString
  | String a (String b r) =>
      hi ← unnibble a;
      lo ← unnibble b;
      r' ← decode r;
      Some (String (ascii_of_N (hi * 16 + lo)) r')
  | String _ EmptyString => None
  end.

(** The text before the first [c] and the text after it. *)
Fixpoint cut (c : ascii) (s : string) : option (string * string) :=
  match s with
  | EmptyString => None
  | String a r =>
      if Ascii.eqb a c then Some (EmptyString, r)
      else '(x, y) ← cut c r; Some (String a x, y)
  end.

Fixpoint dump_fields (d : list (string * json)) : option string :=
  match d with
  | [] => Some EmptyString
  | (k, JStr v) :: r =>
      t ← dump_fields r;
      Some (encode k +:+ "=" +:+ encode v +:+ ";" +:+ t)
  | _ => None
  end.

Definition dump (j : json) : string :=
  match j with
  | JDict d => default "?" (dump_fields d)
  | _ => "?"
  end.

Fixpoint load_fields (fuel : nat) (s : string) : option (list (string * json)) :=
  match s, fuel with
  | EmptyString, _ => Some []
  | _, O => None
  | _, S fuel =>
      '(k, r) ← cut "=" s;
      '(v, r') ← cut ";" r;
      k' ← decode k;
      v' ← decode v;
      rest ← load_fields fuel r';
      Some ((k', JStr v') :: rest)
  end.

Definition load (s : string) : option json :=
  JDict <$> load_fields (String.length s) s.

Definition otp (secret : string) (counter : Z) : string :=
  pretty (counter mod 1000000).

#[export] Instance lib : Lib := {|
  hmac_sha256_hexdigest key msg := encode (key +:+ ":" +:+ msg);
  signer_digest key value := key +:+ ":" +:+ value;
  base64_encode := encode;
  base64_decode := decode;
  dump_payload := dump;
  load_payload := load;
  generate_otp := otp
|}.

Definition cfg : App.Config :=
  {| App.SECRET_KEY := "s3cret"; App.HMAC_KEY := "s3cret" |}.

Definition env (now : Z) (smtp sink : bool) : App.Env :=
  {| App.time_time := now;
     App.utcnow_isoformat := "2024-05-01T10:00:00";
     App.smtp_ok := smtp;
     App.audit_writable := sink;
     App.random_base32 := "JBSWY3DPEHPK3PXP" |}.

Definition world0 : App.World :=
  {| App.session_state := App.initial_session;
     App.users := ∅;
     App.AUDIT_FILE := [];
     App.outbox := [];
     App.page := [] |}.

(** The widgets' values when one button is pressed. *)
Definition request_click (text : string) : App.Widgets :=
  {| App.logout_button := false; App.email_input := text; App.submit := true;
     App.token_input := ""; App.verify := false |}.

Definition verify_click (text : string) : App.Widgets :=
  {| App.logout_button := false; App.email_input := ""; App.submit := false;
     App.token_input := text; App.verify := true |}.

Definition logout_click : App.Widgets :=
  {| App.logout_button := true; App.email_input := ""; App.submit := false;
     App.token_input := ""; App.verify := false |}.

Definition no_click : App.Widgets :=
  {| App.logout_button := false; App.email_input := ""; App.submit := false;
     App.token_input := ""; App.verify := false |}.

(** After a request for [Ana@Example.com] at time 1700000000. *)
Definition world1 : App.World :=
  snd (App.script cfg (env 1700000000 true true)
         (request_click "  Ana@Example.com ") world0).

(** After the one-time code of time step 56666668 is submitted a minute
    later. *)
Definition world2 : App.World :=
  snd (App.script cfg (env 1700000060 true true) (verify_click "666668") world1).

Definition with_pending (token : string) (w : App.World) : App.World :=
  {| App.session_state :=
       {| App.email := App.email (App.session_state w);
          App.pending_token := token;
          App.authenticated := App.authenticated (App.session_state w) |};
     App.users := App.users w; App.AUDIT_FILE := App.AUDIT_FILE w;
     App.outbox := App.outbox w; App.page := App.page w |}.

(** A token under the same key for the same email, issued at the same time,
    with another purpose. *)
Definition reset_token : string :=
  Itsdangerous.serializer_dumps "s3cret"
    (JDict [("email", JStr "ana@example.com"); ("purpose", JStr "reset")])
    1700000000.

(** The token issued for [ana@example.com] at time 1700000000. *)
Definition login_token : string :=
  App.generate_email_token cfg (env 1700000000 true true) "ana@example.com".

(** A text signed under the key at time 1700000000 whose payload part, [x],
    is not the encoding of any object. *)
Definition unreadable_token : string :=
  Itsdangerous.timestamp_sign "s3cret" "x" 1700000000.

End Sample.

(** ** Observers for the further properties

    Read-only views of texts, rows and entries in which the statements on
    the rest of the script are phrased. *)

Module Observe.

Definition newline : ascii := ascii_of_nat 10.

(** Whether a text holds a line feed. *)
Fixpoint has_newline (s : string) : bool :=
  match s with
  | String c r => Ascii.eqb c newline || has_newline r
  | EmptyString => false
  end.

(** A text that is one line of a file: no line feed but the one that ends
    it. *)
Definition single_line (text : string) : Prop :=
  exists body, text = body +:+ String newline "" /\ has_newline body = false.

(** Whether a text consists of white space only. *)
Fixpoint all_space (s : string) : bool :=
  match s with
  | String c r => isspace c && all_space r
  | EmptyString => true
  end.

(** Whether a text is made of ASCII characters only.  On such a text
    [str.strip] and [str.lower] are the functions [strip] and [lower] of
    [Py]; beyond ASCII Python also strips and folds characters that the two
    leave alone. *)
Fixpoint all_ascii (s : string) : bool :=
  match s with
  | String c r => (N_of_ascii c <? 128)%N && all_ascii r
  | EmptyString => true
  end.

(** The text between the braces of a dumped dict. *)
Fixpoint dict_items (d : list (string * json)) : string :=
  match d with
  | [] => ""
  | [(k, v)] => encode_basestring k +:+ ": " +:+ dumps v
  | (k, v) :: r =>
      encode_basestring k +:+ ": " +:+ dumps v +:+ ", " +:+ dict_items r
  end.


(** The event names the script passes to [audit]. *)
Definition event_kinds : list string :=
  ["request_access"; "login_success"; "login_success_totp";
   "login_fail_token"; "login_fail"; "logout"].

(** A dict whose values are all strings. *)
Definition string_valued (d : list (string * json)) : Prop :=
  Forall (fun kv => exists s, snd kv = JStr s) d.

(** An entry as [audit] builds it, for one of the event names and details
    that are strings. *)
Definition script_entry `{L : Lib} (cfg : App.Config) (env : App.Env)
    (e : App.AuditEntry) : Prop :=
  exists event details,
    e = App.audit_entry cfg env event details
    /\ In event event_kinds
    /\ string_valued details.

(** The row with its [is_active] column set to [False]. *)
Definition deactivate (u : UserModel.t) : UserModel.t :=
  UserModel.mk (UserModel.id u) (UserModel.email u) (UserModel.totp_secret u)
    false (UserModel.created_at u).

(** The world with another user table. *)
Definition with_users (t : gmap string UserModel.t) (w : App.World)
  : App.World :=
  {| App.session_state := App.session_state w; App.users := t;
     App.AUDIT_FILE := App.AUDIT_FILE w; App.outbox := App.outbox w;
     App.page := App.page w |}.

(** The world with more on the page. *)
Definition with_page (els : list App.Element) (w : App.World) : App.World :=
  {| App.session_state := App.session_state w; App.users := App.users w;
     App.AUDIT_FILE := App.AUDIT_FILE w; App.outbox := App.outbox w;
     App.page := App.page w ++ els |}.

(** An email on file has its row in the user table. *)
Definition row_on_file (w : App.World) : Prop :=
  truthy_str (App.email (App.session_state w)) = true ->
  is_Some (App.users w !! App.email (App.session_state w)).

(** With an email on file, the pending token is the one issued for it. *)
Definition pending_login `{L : Lib} (cfg : App.Config) (s : App.SessionState)
  : Prop :=
  truthy_str (App.email s) = true ->
  exists issued,
    App.pending_token s
    = Itsdangerous.serializer_dumps (App.SECRET_KEY cfg)
        (JDict [("email", JStr (App.email s)); ("purpose", JStr "login")])
        issued.


End Observe.

(** ** Reading a dumped string

    The reader's side of [escape]: the first character of the body of a JSON
    string and the text after it.  The script never reads the audit file;
    the statements on what a reader of it can tell apart are phrased with
    this. *)

Module JsonRead.




End JsonRead.

(** ** The verify operation as the specification words it

    Section 4.4, transition 2: the signature path is tried first, and only
    when the submitted text is the pending token; otherwise, and also when
    the signature path fails, the TOTP path is tried against the user's
    secret; when both fail the failure is audited, as [login_fail_token] if
    the text was the pending token and as [login_fail] if not, and an error
    is shown.  The texts shown, the exceptions and the case of a missing
    user are those of the script. *)

Module Spec.
Import App.

Section Verify.
Context `{L : Lib}.
Variable cfg : Config.
Variable env : Env.

Definition signature_path (token_in email pending : string) : M bool :=
  if String.eqb token_in pending then
    payload ← lift (verify_email_token cfg env token_in default_max_age);
    lift (payload_matches payload email)
  else mret false.

Definition totp_path (token_in : string) (user : option UserModel.t) : bool :=
  match user with
  | Some user =>
      Pyotp.verify (UserModel.totp_secret user) token_in 1 (time_time env)
  | None => false
  end.

Definition verify_flow (token_in : string) : M unit :=
  let token_in := strip token_in in
  s ← get_session;
  let email := email s in
  if negb (truthy_str email) then
    show (st_error "Primero solicita acceso con tu correo.")
  else
    by_signature ← signature_path token_in email (pending_token s);
    if by_signature : bool then
      set_authenticated true;;
      audit cfg env "login_success" [("email", JStr email)];;
      raise RerunException
    else
      user ← query_first email;
      if totp_path token_in user then
        set_authenticated true;;
        audit cfg env "login_success_totp" [("email", JStr email)];;
        raise RerunException
      else if String.eqb token_in (pending_token s) then
        show (st_error "Token inválido o expirado");;
        audit cfg env "login_fail_token"
          [("submitted", JStr token_in); ("email", JStr email)]
      else
        match user with
        | Some _ =>
            show (st_error "Código inválido");;
            audit cfg env "login_fail"
              [("submitted", JStr token_in); ("email", JStr email)]
        | None => show (st_error "Usuario no encontrado")
        end.

End Verify.

End Spec.

(** ** More sample worlds *)

Module SampleMore.

(** A token under the sample key for another address, and the session of
    [ana@example.com] waiting for it. *)
Definition bob_token : string :=
  App.generate_email_token (L := Sample.lib) Sample.cfg
    (Sample.env 1700000000 true true) "bob@example.com".

Definition world_bob : App.World := Sample.with_pending bob_token Sample.world1.

(** The row of [ana@example.com] in [Sample.world1]. *)
Definition ana : UserModel.t :=
  UserModel.mk 1 "ana@example.com" "JBSWY3DPEHPK3PXP" true "2024-05-01T10:00:00".

(** After a second request for the same address, five minutes after the
    first. *)
Definition world1_again : App.World :=
  snd (App.request_flow (L := Sample.lib) Sample.cfg
         (Sample.env 1700000300 true true) "ana@example.com" Sample.world1).

End SampleMore.

(** Shows that an entry is one [audit] builds for a listed event. *)
Ltac script_entry_tac :=
  eexists _, _; split; [reflexivity|]; split;
  [ unfold Observe.event_kinds; cbn; tauto
  | repeat constructor; eexists; reflexivity ].

(** Unfolds a flow down to the world it returns, one case per branch. *)
Ltac unfold_flow :=
  unfold App.script, App.logout_flow, App.request_flow, App.verify_flow,
    App.try_except, App.when, App.audit, App.send_email_token,
    App.query_first, App.add_commit, App.show, App.set_email,
    App.set_pending_token, App.set_authenticated, App.set_session,
    App.get_session, App.raise, App.lift, mbind, App.M_bind, mret, App.M_ret.

Ltac run_flow :=
  unfold_flow; cbn; repeat (case_match; cbn in *; simplify_eq/=).

(** * Properties *)

Import App.

(** ** The token format *)

Module ItsdangerousFacts.
Import Itsdangerous.

Lemma rsplit_sep_app (a b : string) :
  rsplit_sep b = None -> rsplit_sep (a +:+ String sep b) = Some (a, b).
Proof.
  intros Hb. induction a as [|c a IH]; simpl.
  - now rewrite Hb.
  - now rewrite IH.
Qed.

Lemma list_ascii_app (a b : string) :
  list_ascii_of_string (a +:+ b)
  = (list_ascii_of_string a ++ list_ascii_of_string b)%list.
Proof. induction a as [|c a IH]; simpl; [reflexivity | now rewrite IH]. Qed.

Lemma bytes_to_int_snoc (a : string) (c : ascii) :
  bytes_to_int (a +:+ String c "") = bytes_to_int a * 256 + Z.of_N (N_of_ascii c).
Proof.
  unfold bytes_to_int. rewrite list_ascii_app, fold_left_app. reflexivity.
Qed.

Lemma bytes_to_int_to_bytes (k : nat) (n : Z) :
  0 <= n -> bytes_to_int (to_bytes k n) = n mod 256 ^ Z.of_nat k.
Proof.
  revert n. induction k as [|k IH]; intros n Hn.
  - simpl. now rewrite Z.mod_1_r.
  - cbn [to_bytes]. rewrite bytes_to_int_snoc.
    rewrite IH by (apply Z.div_pos; lia).
    rewrite N_ascii_embedding.
    + rewrite Z2N.id by (apply Z.mod_pos_bound; lia).
      rewrite Nat2Z.inj_succ, Z.pow_succ_r by lia.
      rewrite (Z.rem_mul_r n 256 (256 ^ Z.of_nat k)) by lia. lia.
    + assert (0 <= n mod 256 < 256) by (apply Z.mod_pos_bound; lia). lia.
Qed.

Lemma bytes_to_int_lstrip_nul (s : string) :
  bytes_to_int (lstrip_nul s) = bytes_to_int s.
Proof.
  induction s as [|c s IH]; [reflexivity|].
  simpl. destruct (Ascii.eqb c zero) eqn:E; [|reflexivity].
  apply Ascii.eqb_eq in E. subst c. rewrite IH. reflexivity.
Qed.

(** A clock reading survives the trip through its byte form. *)
Lemma bytes_to_int_int_to_bytes (n : Z) :
  0 <= n < 2 ^ 64 -> bytes_to_int (int_to_bytes n) = n.
Proof.
  intros Hn. unfold int_to_bytes.
  rewrite bytes_to_int_lstrip_nul, bytes_to_int_to_bytes by lia.
  apply Z.mod_small. change (256 ^ Z.of_nat 8) with (2 ^ 64). lia.
Qed.

Section Laws.
Context {L : Lib}.
Variable secret_key : string.

(** What the theorems on issued tokens assume of the base64 codec:
    decoding inverts encoding, and the alphabet has no separator. *)
Hypothesis base64_decode_encode :
  forall b, base64_decode (base64_encode b) = Some b.
Hypothesis base64_no_sep :
  forall b, rsplit_sep (base64_encode b) = None.

Lemma verify_get_signature (value : string) :
  verify_signature secret_key value (get_signature secret_key value) = true.
Proof.
  unfold verify_signature, get_signature.
  rewrite base64_decode_encode. apply String.eqb_refl.
Qed.

Lemma signer_unsign_sign (value : string) (now : Z) :
  signer_unsign secret_key (timestamp_sign secret_key value now)
  = inl (value +:+ String sep (base64_encode (int_to_bytes now))).
Proof.
  unfold signer_unsign, timestamp_sign.
  rewrite rsplit_sep_app by apply base64_no_sep.
  now rewrite verify_get_signature.
Qed.

(** Unsigning a signed text never ends in a missing or bad tag: it is
    judged by the age of the timestamp it carries. *)
Lemma timestamp_unsign_sign_carried (value : string) (issued max_age now : Z) :
  timestamp_unsign secret_key (timestamp_sign secret_key value issued)
    max_age now
  = let ts := bytes_to_int (int_to_bytes issued) in
    if now - ts >? max_age then Raise SignatureExpired
    else if now - ts <? 0 then Raise SignatureExpired
    else Return value.
Proof.
  unfold timestamp_unsign.
  rewrite signer_unsign_sign.
  rewrite rsplit_sep_app by apply base64_no_sep.
  rewrite base64_decode_encode. reflexivity.
Qed.

(** Unsigning a token issued at [issued], at a later reading [now]. *)
Lemma timestamp_unsign_sign (value : string) (issued max_age now : Z) :
  0 <= issued < 2 ^ 64 ->
  timestamp_unsign secret_key (timestamp_sign secret_key value issued)
    max_age now
  = if now - issued >? max_age then Raise SignatureExpired
    else if now - issued <? 0 then Raise SignatureExpired
    else Return value.
Proof.
  intros Hi. rewrite timestamp_unsign_sign_carried. cbv zeta.
  now rewrite bytes_to_int_int_to_bytes.
Qed.

Lemma serializer_loads_dumps (obj : json) (issued max_age now : Z) :
  0 <= issued < 2 ^ 64 ->
  0 <= now - issued <= max_age ->
  load_payload (dump_payload obj) = Some obj ->
  serializer_loads secret_key (serializer_dumps secret_key obj issued)
    max_age now = Return obj.
Proof.
  intros Hi Hage Hp. unfold serializer_loads, serializer_dumps.
  rewrite timestamp_unsign_sign by assumption.
  destruct (Z.gtb_spec (now - issued) max_age); [lia|].
  destruct (Z.ltb_spec (now - issued) 0); [lia|].
  now rewrite Hp.
Qed.

End Laws.

End ItsdangerousFacts.

(** ** The stand-in primitives have the assumed properties *)

Module SampleFacts.
Import Itsdangerous Sample.

Lemma unnibble_nibble (c : ascii) :
  let n := N_of_ascii c in
  unnibble (nibble (n / 16)) = Some (n / 16)%N
  /\ unnibble (nibble (n mod 16)) = Some (n mod 16)%N
  /\ ascii_of_N (n / 16 * 16 + n mod 16) = c.
Proof. destruct c as [[] [] [] [] [] [] [] []]; vm_compute; auto. Qed.

Lemma decode_encode (s : string) : decode (encode s) = Some s.
Proof.
  induction s as [|c s IH]; [reflexivity|].
  destruct (unnibble_nibble c) as (Hhi & Hlo & Hc).
  cbn [encode decode]. cbv zeta in Hhi, Hlo, Hc.
  rewrite Hhi, Hlo, IH. cbn. now rewrite Hc.
Qed.

Lemma nibble_not_sep (c : ascii) :
  let n := N_of_ascii c in
  Ascii.eqb (nibble (n / 16)) sep = false
  /\ Ascii.eqb (nibble (n mod 16)) sep = false.
Proof. destruct c as [[] [] [] [] [] [] [] []]; vm_compute; auto. Qed.

Lemma encode_no_sep (s : string) : rsplit_sep (encode s) = None.
Proof.
  induction s as [|c s IH]; [reflexivity|].
  destruct (nibble_not_sep c) as (Hhi & Hlo). cbv zeta in Hhi, Hlo.
  cbn [encode rsplit_sep]. now rewrite IH, Hlo, Hhi.
Qed.


End SampleFacts.

(** ** Tokens: issuing and verifying *)

Module TokenFacts.
Import Itsdangerous ItsdangerousFacts Token.

Section Verify.
Context {L : Lib}.
Variable cfg : Config.
Variable env : Env.




Lemma verify_bad_tag (token : string) (max_age : Z) :
  token_tag_ok (SECRET_KEY cfg) token = false ->
  verify_email_token cfg env token max_age = Return None.
Proof.
  unfold token_tag_ok, verify_email_token, serializer_loads,
    timestamp_unsign, signer_unsign.
  destruct (rsplit_sep token) as [[value sig]|]; [|reflexivity].
  intros ->. cbn. now destruct (rsplit_sep value) as [[? ?]|].
Qed.

Lemma verify_no_timestamp (token : string) (max_age : Z) :
  token_tag_ok (SECRET_KEY cfg) token = true ->
  token_issued token = None ->
  verify_email_token cfg env token max_age = Return None.
Proof.
  unfold token_tag_ok, token_issued, verify_email_token, serializer_loads,
    timestamp_unsign, signer_unsign.
  destruct (rsplit_sep token) as [[value sig]|]; [|discriminate].
  intros ->. destruct (rsplit_sep value) as [[p ts]|]; [|reflexivity].
  now intros ->.
Qed.

Lemma verify_good_tag (token : string) (max_age ts : Z) :
  token_tag_ok (SECRET_KEY cfg) token = true ->
  token_issued token = Some ts ->
  verify_email_token cfg env token max_age
  = if (time_time env - ts >? max_age) || (time_time env - ts <? 0)
    then Return None
    else match token_payload token with
         | Some obj => Return (Some obj)
         | None => Raise BadPayload
         end.
Proof.
  unfold token_tag_ok, token_issued, token_payload, verify_email_token,
    serializer_loads, timestamp_unsign, signer_unsign.
  destruct (rsplit_sep token) as [[value sig]|]; [|discriminate].
  intros ->. destruct (rsplit_sep value) as [[p t]|]; [|discriminate].
  intros ->. cbn.
  destruct (time_time env - ts >? max_age); [reflexivity|].
  destruct (time_time env - ts <? 0); [reflexivity|]. cbn.
  now destruct (load_payload p).
Qed.

End Verify.

End TokenFacts.

Module TokenClaims.
Import Itsdangerous ItsdangerousFacts Token TokenFacts.

(** C6.  A token verified at the clock reading at which it was issued gives
    back the payload it was issued for: the email it was given and the
    purpose [login], for every non-negative [max_age].  The token format
    needs of the library that base64 decoding inverts encoding, that the
    base64 alphabet has no separator, and that the payload of this email
    decodes to itself (the email is one the serializer can carry). *)
Theorem verify_generate_round_trip `{L : Lib} (cfg : Config) (env : Env)
    (email : string) (max_age : Z) :
  (forall b, base64_decode (base64_encode b) = Some b) ->
  (forall b, rsplit_sep (base64_encode b) = None) ->
  (let payload := JDict [("email", JStr email); ("purpose", JStr "login")] in
   load_payload (dump_payload payload) = Some payload) ->
  0 <= time_time env < 2 ^ 64 ->
  0 <= max_age ->
  verify_email_token cfg env (generate_email_token cfg env email) max_age
  = Return (Some (JDict [("email", JStr email); ("purpose", JStr "login")])).
Proof.
  intros Hdec Hsep Hpayload Hclock Hage.
  unfold verify_email_token, generate_email_token.
  rewrite (serializer_loads_dumps (SECRET_KEY cfg) Hdec Hsep).
  - reflexivity.
  - exact Hclock.
  - lia.
  - exact Hpayload.
Qed.

Lemma verify_generate_round_trip_witness :
  verify_email_token (L := Sample.lib) Sample.cfg
    (Sample.env 1700000000 true true)
    (generate_email_token (L := Sample.lib) Sample.cfg
       (Sample.env 1700000000 true true) "ana@example.com") 600
  = Return (Some (JDict [("email", JStr "ana@example.com");
                         ("purpose", JStr "login")])).
Proof.
  apply (verify_generate_round_trip (L := Sample.lib)).
  - exact SampleFacts.decode_encode.
  - exact SampleFacts.encode_no_sep.
  - vm_compute. reflexivity.
  - cbn. lia.
  - lia.
Defined.

(** C3, as the code has it.  [verify_email_token] returns [None] when the
    tag does not match (whatever the payload), when the signed text carries
    no timestamp that decodes, and when the token is older than [max_age];
    it returns the decoded payload when the tag verifies, the age is between
    0 and [max_age] and the payload decodes.  The default of [max_age] is
    600. *)
Theorem verify_email_token_fails_closed `{L : Lib} (cfg : Config) (env : Env)
    (token : string) (max_age : Z) :
  let result := verify_email_token cfg env token max_age in
  let age ts := time_time env - ts in
  (token_tag_ok (SECRET_KEY cfg) token = false -> result = Return None)
  /\ (token_tag_ok (SECRET_KEY cfg) token = true ->
      token_issued token = None -> result = Return None)
  /\ (forall ts, token_tag_ok (SECRET_KEY cfg) token = true ->
      token_issued token = Some ts ->
      age ts > max_age -> result = Return None)
  /\ (forall ts obj, token_tag_ok (SECRET_KEY cfg) token = true ->
      token_issued token = Some ts ->
      0 <= age ts <= max_age ->
      token_payload token = Some obj -> result = Return (Some obj))
  /\ default_max_age = 600.
Proof.
  cbv zeta. split; [|split; [|split; [|split]]].
  - apply verify_bad_tag.
  - apply verify_no_timestamp.
  - intros ts Htag Hts Hage.
    rewrite (verify_good_tag cfg env token max_age ts Htag Hts).
    destruct (Z.gtb_spec (time_time env - ts) max_age); [reflexivity|].
    destruct (Z.ltb_spec (time_time env - ts) 0); [reflexivity|]. lia.
  - intros ts obj Htag Hts Hage Hobj.
    rewrite (verify_good_tag cfg env token max_age ts Htag Hts), Hobj.
    destruct (Z.gtb_spec (time_time env - ts) max_age); [lia|].
    destruct (Z.ltb_spec (time_time env - ts) 0); [lia|]. reflexivity.
  - reflexivity.
Qed.

Lemma verify_email_token_fails_closed_witness :
  verify_email_token (L := Sample.lib) Sample.cfg
    (Sample.env 1700000060 true true) "no-token" 600 = Return None
  /\ verify_email_token (L := Sample.lib) Sample.cfg
       (Sample.env 1700000700 true true) Sample.login_token 600 = Return None
  /\ verify_email_token (L := Sample.lib) Sample.cfg
       (Sample.env 1700000060 true true) Sample.login_token 600
     = Return (Some (JDict [("email", JStr "ana@example.com");
                            ("purpose", JStr "login")])).
Proof.
  split; [|split].
  - destruct (verify_email_token_fails_closed (L := Sample.lib) Sample.cfg
                (Sample.env 1700000060 true true) "no-token" 600)
      as (H & _).
    apply H. reflexivity.
  - destruct (verify_email_token_fails_closed (L := Sample.lib) Sample.cfg
                (Sample.env 1700000700 true true) Sample.login_token 600)
      as (_ & _ & H & _).
    apply (H 1700000000); [reflexivity | reflexivity | cbn; lia].
  - destruct (verify_email_token_fails_closed (L := Sample.lib) Sample.cfg
                (Sample.env 1700000060 true true) Sample.login_token 600)
      as (_ & _ & _ & H & _).
    apply (H 1700000000); [reflexivity | reflexivity | cbn; lia | reflexivity].
Defined.

(** A text that carries a good tag and a fresh timestamp but no payload that
    decodes makes [loads] raise [BadPayload], which [verify_email_token] does
    not catch. *)
Lemma signed_unreadable_payload_raises `{L : Lib} (cfg : Config) (env : Env)
    (text : string) (issued max_age : Z) :
  (forall b, base64_decode (base64_encode b) = Some b) ->
  (forall b, rsplit_sep (base64_encode b) = None) ->
  load_payload text = None ->
  0 <= issued < 2 ^ 64 ->
  0 <= time_time env - issued <= max_age ->
  verify_email_token cfg env (timestamp_sign (SECRET_KEY cfg) text issued)
    max_age = Raise BadPayload.
Proof.
  intros Hdec Hsep Hload Hi Hage.
  unfold verify_email_token, serializer_loads.
  rewrite (timestamp_unsign_sign (SECRET_KEY cfg) Hdec Hsep) by assumption.
  destruct (Z.gtb_spec (time_time env - issued) max_age); [lia|].
  destruct (Z.ltb_spec (time_time env - issued) 0); [lia|].
  now rewrite Hload.
Qed.

(** C3 as stated fails: this text has a tag that verifies and is one minute
    old, its payload does not decode, and the call raises instead of
    returning [None]. *)
Lemma verify_email_token_raises_bad_payload :
  let env := Sample.env 1700000060 true true in
  let token := Sample.unreadable_token in
  token_tag_ok (L := Sample.lib) "s3cret" token = true
  /\ token_issued (L := Sample.lib) token = Some 1700000000
  /\ token_payload (L := Sample.lib) token = None
  /\ verify_email_token (L := Sample.lib) Sample.cfg env token 600
     = Raise BadPayload.
Proof. vm_compute. repeat split; reflexivity. Qed.

End TokenClaims.

(** ** The session across runs of the script *)

Module SessionClaims.

Section Session.
Context `{L : Lib}.
Variable cfg : Config.

Lemma script_keeps_email (env : Env) (wd : Widgets) (w : World) :
  has_email (session_state w) ->
  has_email (session_state (snd (script cfg env wd w))).
Proof.
  unfold has_email. run_flow; intros Hw Ha; auto; try congruence.
  all: match goal with
       | H : negb (truthy_str ?e) = false |- truthy_str ?e = true =>
           now destruct (truthy_str e)
       end.
Qed.

Lemma reachable_has_email (w : World) :
  reachable cfg w -> has_email (session_state w).
Proof.
  induction 1 as [w Hw | w env wd _ IH].
  - rewrite Hw. unfold has_email. discriminate.
  - now apply script_keeps_email.
Qed.

Lemma script_keeps_pending (env : Env) (wd : Widgets) (w : World) :
  pending_issued cfg (session_state w) ->
  pending_issued cfg (session_state (snd (script cfg env wd w))).
Proof.
  unfold pending_issued. run_flow; intros Hw; auto.
  all: right; exists (time_time env); reflexivity.
Qed.

Lemma reachable_pending_issued (w : World) :
  reachable cfg w -> pending_issued cfg (session_state w).
Proof.
  induction 1 as [w Hw | w env wd _ IH].
  - rewrite Hw. now left.
  - now apply script_keeps_pending.
Qed.

Lemma truthy_str_cons (s : string) :
  truthy_str s = true -> exists c r, s = String c r.
Proof. destruct s as [|c r]; [discriminate | eauto]. Qed.

Lemma logout_resets (env : Env) (wd : Widgets) (w : World) :
  authenticated (session_state w) = true ->
  logout_button wd = true ->
  audit_writable env = true ->
  script cfg env wd w
  = (Raise StopException,
     {| session_state := initial_session;
        users := users w;
        AUDIT_FILE :=
          AUDIT_FILE w ++
          [audit_entry cfg env "logout"
             [("email", JStr (email (session_state w)))]];
        outbox := outbox w;
        page := page w ++
                [st_success ("Conectado como " +:+ email (session_state w))] |}).
Proof.
  intros Ha Hb Hw. unfold_flow. cbn. rewrite Ha, Hb. cbn. rewrite Hw. cbn.
  reflexivity.
Qed.

End Session.

(** Lines 116 to 119 when the audit file cannot be written: [audit] raises
    before the three fields are reset. *)
Lemma logout_unlogged `{L : Lib} (cfg : Config) (env : Env) (wd : Widgets)
    (w : World) :
  authenticated (session_state w) = true ->
  logout_button wd = true ->
  audit_writable env = false ->
  script cfg env wd w
  = (Raise OSError,
     {| session_state := session_state w;
        users := users w;
        AUDIT_FILE := AUDIT_FILE w;
        outbox := outbox w;
        page := page w ++
                [st_success ("Conectado como " +:+ email (session_state w))] |}).
Proof.
  intros Ha Hb Hw. unfold_flow. cbn. rewrite Ha, Hb. cbn. rewrite Hw. cbn.
  reflexivity.
Qed.

(** C10, as the code has it.  In every world a session reaches from its
    initial state by runs of the script (request, verify, logout), an
    authenticated session has a non-empty email.  A logout in such a session
    writes its audit entry first: when the entry is written, the run stops
    with the three fields back at their initial values; when the audit file
    cannot be written, the run ends with the storage error and the three
    fields as they were, the session still authenticated. *)
Theorem authenticated_session_has_email `{L : Lib} (cfg : Config) (w : World) :
  reachable cfg w ->
  (authenticated (session_state w) = true ->
   exists c r, email (session_state w) = String c r)
  /\ (forall env wd,
        authenticated (session_state w) = true ->
        logout_button wd = true ->
        let r := script cfg env wd w in
        if audit_writable env
        then fst r = Raise StopException
             /\ session_state (snd r) = initial_session
        else fst r = Raise OSError
             /\ session_state (snd r) = session_state w).
Proof.
  intros Hreach. split.
  - intros Ha. apply truthy_str_cons.
    now apply (reachable_has_email cfg w Hreach).
  - intros env wd Ha Hb r. subst r.
    destruct (audit_writable env) eqn:Hsink.
    + now rewrite (logout_resets cfg env wd w Ha Hb Hsink).
    + now rewrite (logout_unlogged cfg env wd w Ha Hb Hsink).
Qed.

Lemma sample_world2_reachable : reachable (L := Sample.lib) Sample.cfg Sample.world2.
Proof.
  unfold Sample.world2, Sample.world1.
  apply reachable_run, reachable_run, reachable_start. reflexivity.
Qed.

Lemma authenticated_session_has_email_witness :
  (exists c r, email (session_state Sample.world2) = String c r)
  /\ session_state (snd (script (L := Sample.lib) Sample.cfg
                           (Sample.env 1700000120 true true)
                           Sample.logout_click Sample.world2))
     = initial_session
  /\ session_state (snd (script (L := Sample.lib) Sample.cfg
                           (Sample.env 1700000120 true false)
                           Sample.logout_click Sample.world2))
     = session_state Sample.world2.
Proof.
  destruct (authenticated_session_has_email (L := Sample.lib) Sample.cfg
              Sample.world2 sample_world2_reachable) as [H1 H2].
  split; [|split].
  - apply H1. reflexivity.
  - apply (H2 (Sample.env 1700000120 true true) Sample.logout_click);
      reflexivity.
  - apply (H2 (Sample.env 1700000120 true false) Sample.logout_click);
      reflexivity.
Defined.

(** C10 as stated fails: this session was reached by a request and a verify
    call and is authenticated; the logout button is pressed while the audit
    file cannot be written; the run ends with the storage error and none of
    the three fields is back at its initial value. *)
Lemma logout_unlogged_keeps_session :
  let r := script (L := Sample.lib) Sample.cfg
             (Sample.env 1700000120 true false) Sample.logout_click
             Sample.world2 in
  reachable (L := Sample.lib) Sample.cfg Sample.world2
  /\ authenticated (session_state Sample.world2) = true
  /\ fst r = Raise OSError
  /\ email (session_state (snd r)) = "ana@example.com"
  /\ pending_token (session_state (snd r)) = Sample.login_token
  /\ authenticated (session_state (snd r)) = true.
Proof.
  split; [exact sample_world2_reachable|].
  vm_compute. repeat split; reflexivity.
Qed.

End SessionClaims.

(** ** Requesting access *)

Module RequestClaims.

Section Request.
Context `{L : Lib}.
Variable cfg : Config.

(** The table after the lookup-or-create of lines 130 to 134. *)
Lemma request_flow_users (env : Env) (email_in : string) (w : World) :
  let email := lower (strip email_in) in
  users (snd (request_flow cfg env email_in w))
  = match users w !! email with
    | Some _ => users w
    | None =>
        <[email := UserModel.mk (Z.of_nat (size (users w)) + 1) email
                     (random_base32 env) true (utcnow_isoformat env)]> (users w)
    end.
Proof. run_flow; reflexivity. Qed.

Lemma request_flow_undelivered (env : Env) (email_in : string) (w : World) :
  smtp_ok env = false ->
  let r := request_flow cfg env email_in w in
  fst r = Return tt
  /\ session_state (snd r) = session_state w
  /\ AUDIT_FILE (snd r) = AUDIT_FILE w
  /\ outbox (snd r) = outbox w
  /\ page (snd r)
     = page w ++ [st_error "Error enviando el correo. Revisa configuración SMTP."].
Proof. intros Hs. run_flow; auto. Qed.

Lemma request_flow_delivered (env : Env) (email_in : string) (w : World) :
  smtp_ok env = true ->
  audit_writable env = true ->
  let email := lower (strip email_in) in
  let token := generate_email_token cfg env email in
  let r := request_flow cfg env email_in w in
  fst r = Return tt
  /\ session_state (snd r)
     = {| email := email; pending_token := token;
          authenticated := authenticated (session_state w) |}
  /\ AUDIT_FILE (snd r)
     = AUDIT_FILE w ++ [audit_entry cfg env "request_access" [("email", JStr email)]]
  /\ page (snd r) = page w ++ [st_info "Se ha enviado un código a tu correo"].
Proof. intros Hs Ha. run_flow; auto. Qed.

Lemma request_flow_unlogged (env : Env) (email_in : string) (w : World) :
  audit_writable env = false ->
  let r := request_flow cfg env email_in w in
  fst r = Return tt
  /\ session_state (snd r) = session_state w
  /\ AUDIT_FILE (snd r) = AUDIT_FILE w
  /\ page (snd r)
     = page w ++ [st_error "Error enviando el correo. Revisa configuración SMTP."].
Proof. intros Ha. run_flow; auto. Qed.

End Request.

(** C5.  When the mail cannot be delivered, [requestAccess] leaves the
    session's email, pending token and flag as they were and shows the
    error; the user's row, created by this call when the email was new (with
    the fresh TOTP secret), stays in the table, and a retry for the same
    email finds it and leaves the table as it is. *)
Theorem request_delivery_failure `{L : Lib} (cfg : Config) (env : Env)
    (email_in : string) (w : World) :
  smtp_ok env = false ->
  let email := lower (strip email_in) in
  let r := request_flow cfg env email_in w in
  fst r = Return tt
  /\ session_state (snd r) = session_state w
  /\ page (snd r)
     = page w ++ [st_error "Error enviando el correo. Revisa configuración SMTP."]
  /\ (users w !! email = None ->
      users (snd r) !! email
      = Some (UserModel.mk (Z.of_nat (size (users w)) + 1) email
                (random_base32 env) true (utcnow_isoformat env)))
  /\ (forall u, users w !! email = Some u -> users (snd r) !! email = Some u)
  /\ (forall env', users (snd (request_flow cfg env' email_in (snd r)))
                   = users (snd r)).
Proof.
  intros Hs email r.
  destruct (request_flow_undelivered cfg env email_in w Hs)
    as (Hret & Hsess & _ & _ & Hpage).
  assert (Hu := request_flow_users cfg env email_in w).
  cbv zeta in Hu. fold email r in Hu, Hret, Hsess, Hpage.
  repeat split; auto.
  - intros Hnone. rewrite Hu, Hnone. apply lookup_insert_eq.
  - intros u Hsome. now rewrite Hu, Hsome.
  - intros env'. rewrite request_flow_users. cbv zeta. fold email.
    destruct (users (snd r) !! email) eqn:E; [reflexivity|].
    exfalso. rewrite Hu in E.
    destruct (users w !! email) eqn:E'; [congruence|].
    now rewrite lookup_insert_eq in E.
Qed.

Lemma request_delivery_failure_witness :
  let r := request_flow (L := Sample.lib) Sample.cfg
             (Sample.env 1700000000 false true) "  Ana@Example.com "
             Sample.world0 in
  session_state (snd r) = initial_session
  /\ (UserModel.totp_secret <$> users (snd r) !! "ana@example.com")
     = Some "JBSWY3DPEHPK3PXP"
  /\ users (snd (request_flow (L := Sample.lib) Sample.cfg
                   (Sample.env 1700000030 true true) "  Ana@Example.com "
                   (snd r)))
     = users (snd r).
Proof.
  destruct (request_delivery_failure (L := Sample.lib) Sample.cfg
              (Sample.env 1700000000 false true) "  Ana@Example.com "
              Sample.world0 eq_refl) as (_ & Hs & _ & Hnew & _ & Hretry).
  cbv zeta. split; [|split].
  - exact Hs.
  - assert (H := Hnew eq_refl).
    change (lower (strip "  Ana@Example.com ")) with "ana@example.com" in H.
    rewrite H. reflexivity.
  - apply Hretry.
Defined.

End RequestClaims.

(** ** Verifying a code *)

Module VerifyClaims.

Section Verify.
Context `{L : Lib}.
Variable cfg : Config.
Variable env : Env.

Lemma bind_run {A B : Type} (m : M A) (f : A -> M B) (w : World) :
  (m ≫= f) w
  = match m w with
    | (Return a, w') => f a w'
    | (Raise e, w') => (Raise e, w')
    end.
Proof. reflexivity. Qed.

(** Line 155: with no email on file the call only shows the usage error. *)
Lemma verify_flow_no_email (token_in : string) (w : World) :
  truthy_str (email (session_state w)) = false ->
  verify_flow cfg env token_in w
  = show (st_error "Primero solicita acceso con tu correo.") w.
Proof.
  intros He. unfold verify_flow. rewrite bind_run.
  unfold get_session. cbv beta iota. now rewrite He.
Qed.

(** Lines 159 to 167: the submitted text is the pending token. *)
Lemma verify_flow_signature (token_in : string) (w : World)
    (payload : option json) (ok : bool) :
  let email := email (session_state w) in
  truthy_str email = true ->
  strip token_in = pending_token (session_state w) ->
  verify_email_token cfg env (strip token_in) default_max_age = Return payload ->
  payload_matches payload email = Return ok ->
  verify_flow cfg env token_in w
  = if ok then
      (set_authenticated true;;
       audit cfg env "login_success" [("email", JStr email)];;
       raise RerunException) w
    else
      (show (st_error "Token inválido o expirado");;
       audit cfg env "login_fail_token"
         [("submitted", JStr (strip token_in)); ("email", JStr email)]) w.
Proof.
  intros email He Hp Hv Hm. unfold verify_flow. rewrite bind_run.
  unfold get_session. cbv beta iota. fold email.
  rewrite He, <- Hp, String.eqb_refl. cbn [negb].
  rewrite bind_run. unfold lift at 1. cbv beta iota. rewrite Hv.
  rewrite bind_run. unfold lift at 1. cbv beta iota. rewrite Hm.
  now destruct ok.
Qed.

(** Lines 169 to 181: any other text goes to the TOTP check. *)
Lemma verify_flow_totp (token_in : string) (w : World) :
  let email := email (session_state w) in
  truthy_str email = true ->
  strip token_in <> pending_token (session_state w) ->
  verify_flow cfg env token_in w
  = match users w !! email with
    | Some user =>
        if Pyotp.verify (UserModel.totp_secret user) (strip token_in) 1
             (time_time env)
        then
          (set_authenticated true;;
           audit cfg env "login_success_totp" [("email", JStr email)];;
           raise RerunException) w
        else
          (show (st_error "Código inválido");;
           audit cfg env "login_fail"
             [("submitted", JStr (strip token_in)); ("email", JStr email)]) w
    | None => show (st_error "Usuario no encontrado") w
    end.
Proof.
  intros email He Hp. unfold verify_flow. rewrite bind_run.
  unfold get_session. cbv beta iota. fold email.
  rewrite He. apply String.eqb_neq in Hp. rewrite Hp. cbn [negb].
  rewrite bind_run. unfold query_first. cbv beta iota.
  destruct (users w !! email) as [user|]; [|reflexivity].
  now destruct (Pyotp.verify _ _ _ _).
Qed.

(** Lines 162 to 164 and 174 to 176: the flag is set, then the entry is
    written, then the script asks for a rerun. *)
Lemma accept_run (event : string) (details : list (string * json)) (w : World) :
  (set_authenticated true;; audit cfg env event details;;
   (raise RerunException : M unit)) w
  = let w1 :=
      {| session_state :=
           {| email := email (session_state w);
              pending_token := pending_token (session_state w);
              authenticated := true |};
         users := users w; AUDIT_FILE := AUDIT_FILE w; outbox := outbox w;
         page := page w |} in
    if audit_writable env then
      (Raise RerunException,
       {| session_state := session_state w1; users := users w;
          AUDIT_FILE := AUDIT_FILE w ++ [audit_entry cfg env event details];
          outbox := outbox w; page := page w |})
    else (Raise OSError, w1).
Proof. unfold_flow. cbn. now destruct (audit_writable env). Qed.

(** Lines 166 to 167 and 178 to 179: the error is shown, then the entry is
    written. *)
Lemma reject_run (text event : string) (details : list (string * json))
    (w : World) :
  (show (st_error text);; audit cfg env event details) w
  = let w1 :=
      {| session_state := session_state w; users := users w;
         AUDIT_FILE := AUDIT_FILE w; outbox := outbox w;
         page := page w ++ [st_error text] |} in
    if audit_writable env then
      (Return tt,
       {| session_state := session_state w; users := users w;
          AUDIT_FILE := AUDIT_FILE w ++ [audit_entry cfg env event details];
          outbox := outbox w; page := page w1 |})
    else (Raise OSError, w1).
Proof. unfold_flow. cbn. now destruct (audit_writable env). Qed.

Lemma verify_email_token_raises (token : string) (max_age : Z) (e : exn) :
  verify_email_token cfg env token max_age = Raise e -> e = BadPayload.
Proof.
  unfold verify_email_token, Itsdangerous.serializer_loads,
    Itsdangerous.timestamp_unsign.
  intros H. repeat (case_match; simplify_eq/=); reflexivity.
Qed.

Lemma payload_matches_raises (payload : option json) (email : string) (e : exn) :
  payload_matches payload email = Raise e -> e = AttributeError.
Proof.
  unfold payload_matches, get.
  intros H. repeat (case_match; simplify_eq/=); reflexivity.
Qed.

Lemma verify_flow_never_reruns_unlogged (token_in : string) (w : World) :
  audit_writable env = false ->
  fst (verify_flow cfg env token_in w) <> Raise RerunException.
Proof.
  intros Hw. unfold verify_flow. rewrite bind_run.
  unfold get_session. cbv beta iota.
  destruct (negb (truthy_str (email (session_state w)))); [discriminate|].
  destruct (String.eqb _ _).
  - rewrite bind_run. unfold lift at 1. cbv beta iota.
    destruct (verify_email_token _ _ _ _) as [payload|e] eqn:Ev.
    + rewrite bind_run. unfold lift at 1. cbv beta iota.
      destruct (payload_matches _ _) as [[|]|e] eqn:Em.
      * rewrite accept_run, Hw. discriminate.
      * rewrite reject_run, Hw. discriminate.
      * apply payload_matches_raises in Em. subst e. discriminate.
    + apply verify_email_token_raises in Ev. subst e. discriminate.
  - rewrite bind_run. unfold query_first. cbv beta iota.
    destruct (users w !! _) as [user|]; [|discriminate].
    destruct (Pyotp.verify _ _ _ _).
    + rewrite accept_run, Hw. discriminate.
    + rewrite reject_run, Hw. discriminate.
Qed.

End Verify.

(** In a session whose pending token was issued by the script, the signature
    path always comes to a verdict. *)
Lemma signature_path_verdict `{L : Lib} (cfg : Config) (env : Env)
    (s : SessionState) :
  (forall b, base64_decode (base64_encode b) = Some b) ->
  (forall b, Itsdangerous.rsplit_sep (base64_encode b) = None) ->
  (let payload := JDict [("email", JStr (email s)); ("purpose", JStr "login")] in
   load_payload (dump_payload payload) = Some payload) ->
  pending_issued cfg s ->
  exists payload ok,
    verify_email_token cfg env (pending_token s) default_max_age
    = Return payload
    /\ payload_matches payload (email s) = Return ok.
Proof.
  intros Hdec Hsep Hload [-> | [issued ->]].
  - exists None, false. split; reflexivity.
  - unfold verify_email_token, Itsdangerous.serializer_loads,
      Itsdangerous.serializer_dumps.
    rewrite (ItsdangerousFacts.timestamp_unsign_sign_carried
               (SECRET_KEY cfg) Hdec Hsep).
    cbv zeta.
    destruct (_ >? _); [exists None, false; split; reflexivity|].
    destruct (_ <? _); [exists None, false; split; reflexivity|].
    cbv zeta in Hload. rewrite Hload.
    eexists _, true. split; [reflexivity|].
    cbn. now rewrite String.eqb_refl.
Qed.

(** C1, as the code has it.  While the audit file can be written, in every
    world a session reaches by runs of the script, a verify call with an
    email on file appends exactly one entry, on the signature path and, the
    user's record being in the table, on the one-time-code path; a request
    whose mail is delivered appends exactly one entry; a request whose mail is
    not delivered appends none.  Of the library: base64 decoding inverts
    encoding, its alphabet has no separator, and the payload of the
    session's email decodes to itself. *)
Theorem audit_one_entry_per_decision `{L : Lib} (cfg : Config) (env : Env)
    (w : World) :
  reachable cfg w ->
  (forall b, base64_decode (base64_encode b) = Some b) ->
  (forall b, Itsdangerous.rsplit_sep (base64_encode b) = None) ->
  (let payload :=
     JDict [("email", JStr (email (session_state w)));
            ("purpose", JStr "login")] in
   load_payload (dump_payload payload) = Some payload) ->
  audit_writable env = true ->
  let email := email (session_state w) in
  (forall token_in,
     truthy_str email = true ->
     strip token_in = pending_token (session_state w)
     \/ is_Some (users w !! email) ->
     exists e, AUDIT_FILE (snd (verify_flow cfg env token_in w))
               = AUDIT_FILE w ++ [e])
  /\ (forall email_in,
        smtp_ok env = true ->
        exists e, AUDIT_FILE (snd (request_flow cfg env email_in w))
                  = AUDIT_FILE w ++ [e])
  /\ (forall email_in,
        smtp_ok env = false ->
        AUDIT_FILE (snd (request_flow cfg env email_in w)) = AUDIT_FILE w).
Proof.
  intros Hreach Hdec Hsep Hload Hw email. split; [|split].
  - intros token_in He Hcase.
    destruct (decide (strip token_in = pending_token (session_state w)))
      as [Hp | Hp].
    + destruct (signature_path_verdict cfg env (session_state w) Hdec Hsep
                  Hload (SessionClaims.reachable_pending_issued cfg w Hreach))
        as (payload & ok & Hv & Hm).
      rewrite <- Hp in Hv.
      rewrite (verify_flow_signature cfg env token_in w payload ok He Hp Hv Hm).
      destruct ok.
      * rewrite accept_run, Hw. cbn. eauto.
      * rewrite reject_run, Hw. cbn. eauto.
    + destruct Hcase as [Hp' | [user Hu]]; [contradiction|].
      rewrite (verify_flow_totp cfg env token_in w He Hp). fold email.
      rewrite Hu. destruct (Pyotp.verify _ _ _ _).
      * rewrite accept_run, Hw. cbn. eauto.
      * rewrite reject_run, Hw. cbn. eauto.
  - intros email_in Hs.
    destruct (RequestClaims.request_flow_delivered cfg env email_in w Hs Hw)
      as (_ & _ & Ha & _). eauto.
  - intros email_in Hs.
    now destruct (RequestClaims.request_flow_undelivered cfg env email_in w Hs)
      as (_ & _ & Ha & _).
Qed.

Lemma sample_world1_reachable :
  reachable (L := Sample.lib) Sample.cfg Sample.world1.
Proof.
  unfold Sample.world1. apply reachable_run, reachable_start. reflexivity.
Qed.

Lemma audit_one_entry_per_decision_witness :
  let env := Sample.env 1700000700 true true in
  (exists e,
     AUDIT_FILE (snd (verify_flow (L := Sample.lib) Sample.cfg env
                        Sample.login_token Sample.world1))
     = AUDIT_FILE Sample.world1 ++ [e])
  /\ (exists e,
        AUDIT_FILE (snd (verify_flow (L := Sample.lib) Sample.cfg env
                           "000000" Sample.world1))
        = AUDIT_FILE Sample.world1 ++ [e])
  /\ (exists e,
        AUDIT_FILE (snd (request_flow (L := Sample.lib) Sample.cfg env
                           "ana@example.com" Sample.world1))
        = AUDIT_FILE Sample.world1 ++ [e]).
Proof.
  destruct (audit_one_entry_per_decision (L := Sample.lib) Sample.cfg
              (Sample.env 1700000700 true true) Sample.world1
              sample_world1_reachable SampleFacts.decode_encode
              SampleFacts.encode_no_sep eq_refl eq_refl)
    as (Hverify & Hreq & _).
  split; [|split].
  - apply Hverify; [reflexivity | left; reflexivity].
  - apply Hverify; [reflexivity | right; vm_compute; eauto].
  - apply Hreq. reflexivity.
Defined.

(** C1 as stated fails: a request whose mail cannot be delivered returns
    with the error on the page and the audit file as it was. *)
Lemma undelivered_request_unaudited :
  let r := request_flow (L := Sample.lib) Sample.cfg
             (Sample.env 1700000000 false true) "ana@example.com"
             Sample.world0 in
  fst r = Return tt
  /\ AUDIT_FILE (snd r) = []
  /\ page (snd r)
     = [st_error "Error enviando el correo. Revisa configuración SMTP."].
Proof. vm_compute. repeat split; reflexivity. Qed.

(** C4, as the code has it.  When the audit file cannot be written, no call
    is reported as a success: a verify call never ends in the rerun that
    follows a login, and ends with the storage error whenever it reached a
    verdict; a request shows the error and leaves the session as it was; a
    logout ends with the storage error and leaves the session as it was. *)
Theorem unwritable_audit_no_success `{L : Lib} (cfg : Config) (env : Env)
    (w : World) :
  audit_writable env = false ->
  let email := email (session_state w) in
  (forall token_in,
     fst (verify_flow cfg env token_in w) <> Raise RerunException)
  /\ (forall token_in payload ok,
        truthy_str email = true ->
        strip token_in = pending_token (session_state w) ->
        verify_email_token cfg env (strip token_in) default_max_age
        = Return payload ->
        payload_matches payload email = Return ok ->
        fst (verify_flow cfg env token_in w) = Raise OSError)
  /\ (forall token_in user,
        truthy_str email = true ->
        strip token_in <> pending_token (session_state w) ->
        users w !! email = Some user ->
        fst (verify_flow cfg env token_in w) = Raise OSError)
  /\ (forall email_in,
        let r := request_flow cfg env email_in w in
        fst r = Return tt
        /\ session_state (snd r) = session_state w
        /\ page (snd r)
           = page w ++
             [st_error "Error enviando el correo. Revisa configuración SMTP."])
  /\ (forall wd,
        authenticated (session_state w) = true ->
        logout_button wd = true ->
        let r := script cfg env wd w in
        fst r = Raise OSError /\ session_state (snd r) = session_state w).
Proof.
  intros Hw email. split; [|split; [|split; [|split]]].
  - intros token_in. now apply verify_flow_never_reruns_unlogged.
  - intros token_in payload ok He Hp Hv Hm.
    rewrite (verify_flow_signature cfg env token_in w payload ok He Hp Hv Hm).
    destruct ok; [rewrite accept_run | rewrite reject_run]; now rewrite Hw.
  - intros token_in user He Hp Hu.
    rewrite (verify_flow_totp cfg env token_in w He Hp). fold email.
    rewrite Hu.
    destruct (Pyotp.verify _ _ _ _);
      [rewrite accept_run | rewrite reject_run]; now rewrite Hw.
  - intros email_in.
    destruct (RequestClaims.request_flow_unlogged cfg env email_in w Hw)
      as (H1 & H2 & _ & H3). auto.
  - intros wd Ha Hb. unfold_flow. cbn. rewrite Ha, Hb. cbn. rewrite Hw. cbn.
    auto.
Qed.

Lemma unwritable_audit_no_success_witness :
  fst (verify_flow (L := Sample.lib) Sample.cfg
         (Sample.env 1700000060 true false) "666668" Sample.world1)
  = Raise OSError
  /\ session_state (snd (request_flow (L := Sample.lib) Sample.cfg
                           (Sample.env 1700000060 true false)
                           "bob@example.com" Sample.world1))
     = session_state Sample.world1
  /\ session_state (snd (script (L := Sample.lib) Sample.cfg
                           (Sample.env 1700000120 true false)
                           Sample.logout_click Sample.world2))
     = session_state Sample.world2.
Proof.
  split; [|split].
  - destruct (unwritable_audit_no_success (L := Sample.lib) Sample.cfg
                (Sample.env 1700000060 true false) Sample.world1 eq_refl)
      as (_ & _ & H & _).
    refine (H "666668"
              (UserModel.mk 1 "ana@example.com" "JBSWY3DPEHPK3PXP" true
                 "2024-05-01T10:00:00") eq_refl _ _).
    + vm_compute. discriminate.
    + vm_compute. reflexivity.
  - destruct (unwritable_audit_no_success (L := Sample.lib) Sample.cfg
                (Sample.env 1700000060 true false) Sample.world1 eq_refl)
      as (_ & _ & _ & H & _).
    apply (H "bob@example.com").
  - destruct (unwritable_audit_no_success (L := Sample.lib) Sample.cfg
                (Sample.env 1700000120 true false) Sample.world2 eq_refl)
      as (_ & _ & _ & _ & H).
    apply (H Sample.logout_click); reflexivity.
Defined.

(** C4 as stated fails: the user's current one-time code is submitted while
    the audit file cannot be written; the call ends with the storage error,
    nothing is appended, and the session is left authenticated, so that the
    next run of the script greets the user as connected. *)
Lemma unwritable_audit_leaves_authenticated :
  let r := verify_flow (L := Sample.lib) Sample.cfg
             (Sample.env 1700000060 true false) "666668" Sample.world1 in
  authenticated (session_state Sample.world1) = false
  /\ fst r = Raise OSError
  /\ AUDIT_FILE (snd r) = AUDIT_FILE Sample.world1
  /\ authenticated (session_state (snd r)) = true
  /\ last (page (snd (script (L := Sample.lib) Sample.cfg
                        (Sample.env 1700000061 true true)
                        Sample.no_click (snd r))))
     = Some (st_success "Conectado como ana@example.com").
Proof. vm_compute. repeat split; reflexivity. Qed.

End VerifyClaims.

(** ** One-time codes *)

Module TotpClaims.

Lemma verify_window_one `{L : Lib} (secret otp : string) (now : Z) :
  Pyotp.verify secret otp 1 now
  = String.eqb otp (Pyotp.at_ secret now (-1))
    || (String.eqb otp (Pyotp.at_ secret now 0)
        || (String.eqb otp (Pyotp.at_ secret now 1) || false)).
Proof. reflexivity. Qed.

(** C7.  Time steps are 30 seconds long.  With window 1, a code that is the
    secret's code at the current step, the one before or the one after is
    accepted, and a code that is the secret's code three steps away and at
    none of those three steps is rejected.  The verify flow uses window 1:
    on the one-time-code path the session ends up authenticated exactly when
    this check accepts the submitted text. *)
Theorem totp_window_one `{L : Lib} (secret otp : string) (now : Z) :
  let step := Pyotp.timecode now in
  step = now / 30
  /\ (forall i, -1 <= i <= 1 -> otp = generate_otp secret (step + i) ->
      Pyotp.verify secret otp 1 now = true)
  /\ (otp = generate_otp secret (step + 3)
      \/ otp = generate_otp secret (step - 3) ->
      (forall i, -1 <= i <= 1 -> otp <> generate_otp secret (step + i)) ->
      Pyotp.verify secret otp 1 now = false)
  /\ (forall cfg env token_in w user,
        time_time env = now ->
        truthy_str (email (session_state w)) = true ->
        strip token_in <> pending_token (session_state w) ->
        users w !! email (session_state w) = Some user ->
        authenticated (session_state w) = false ->
        authenticated (session_state (snd (verify_flow cfg env token_in w)))
        = Pyotp.verify (UserModel.totp_secret user) (strip token_in) 1 now).
Proof.
  intros step. split; [reflexivity|]. split; [|split].
  - intros i Hi ->. rewrite verify_window_one. unfold Pyotp.at_. fold step.
    assert (i = -1 \/ i = 0 \/ i = 1) as [-> | [-> | ->]] by lia;
      rewrite String.eqb_refl; cbn [orb]; rewrite ?orb_true_r; reflexivity.
  - intros _ Hno. rewrite verify_window_one. unfold Pyotp.at_. fold step.
    rewrite !(proj2 (String.eqb_neq _ _)); [reflexivity | | |];
      apply Hno; lia.
  - intros cfg env token_in w user <- He Hp Hu Ha.
    rewrite (VerifyClaims.verify_flow_totp cfg env token_in w He Hp), Hu.
    destruct (Pyotp.verify _ _ _ _).
    + rewrite VerifyClaims.accept_run. now destruct (audit_writable env).
    + rewrite VerifyClaims.reject_run. now destruct (audit_writable env).
Qed.

Lemma totp_window_one_witness :
  Pyotp.verify (L := Sample.lib) "JBSWY3DPEHPK3PXP" "666669" 1 1700000060 = true
  /\ Pyotp.verify (L := Sample.lib) "JBSWY3DPEHPK3PXP" "666671" 1 1700000060
     = false.
Proof.
  destruct (totp_window_one (L := Sample.lib) "JBSWY3DPEHPK3PXP" "666669"
              1700000060) as (_ & Hin & _).
  destruct (totp_window_one (L := Sample.lib) "JBSWY3DPEHPK3PXP" "666671"
              1700000060) as (_ & _ & Hout & _).
  split.
  - apply (Hin 1); [lia | reflexivity].
  - apply Hout.
    + left. reflexivity.
    + intros i Hi.
      assert (i = -1 \/ i = 0 \/ i = 1) as [-> | [-> | ->]] by lia;
        vm_compute; discriminate.
Defined.

End TotpClaims.

(** ** The audit file *)

Module AuditClaims.

Lemma audit_entry_verifies `{L : Lib} (cfg : Config) (env : Env)
    (event : string) (details : list (string * json)) :
  entry_verifies cfg (audit_entry cfg env event details) = true.
Proof. unfold entry_verifies, audit_entry. cbn. apply String.eqb_refl. Qed.

Lemma append_assoc (a b c : string) : (a +:+ b) +:+ c = a +:+ (b +:+ c).
Proof.
  induction a as [|x a IH]; [reflexivity|].
  change (String x ((a +:+ b) +:+ c) = String x (a +:+ (b +:+ c))).
  now rewrite IH.
Qed.

(** The line written for an entry holds the signed text as it was signed,
    followed by the tag. *)
Lemma entry_line_holds_signed_text (e : AuditEntry) :
  entry_line e
  = "{" +:+ encode_basestring "record" +:+ ": " +:+ dumps (record e) +:+ ", "
    +:+ encode_basestring "hmac" +:+ ": " +:+ encode_basestring (hmac e)
    +:+ "}" +:+ String (ascii_of_nat 10) "".
Proof.
  unfold entry_line. cbn [dumps]. now rewrite !append_assoc.
Qed.


End AuditClaims.

(** * Further properties of the script *)

(** ** Configuration and text *)

Module TextProps.
Import Observe.

Lemma isspace_lower_char (c : ascii) : isspace (lower_char c) = isspace c.
Proof. destruct c as [[] [] [] [] [] [] [] []]; vm_compute; reflexivity. Qed.

Lemma lower_char_idem (c : ascii) : lower_char (lower_char c) = lower_char c.
Proof. destruct c as [[] [] [] [] [] [] [] []]; vm_compute; reflexivity. Qed.

Lemma lower_idem (s : string) : lower (lower s) = lower s.
Proof.
  induction s as [|c s IH]; [reflexivity|].
  cbn [lower]. now rewrite lower_char_idem, IH.
Qed.

Lemma lstrip_lower (s : string) : lstrip (lower s) = lower (lstrip s).
Proof.
  induction s as [|c s IH]; [reflexivity|].
  cbn [lower lstrip]. rewrite isspace_lower_char.
  destruct (isspace c); [exact IH | reflexivity].
Qed.

Lemma rstrip_lower (s : string) : rstrip (lower s) = lower (rstrip s).
Proof.
  induction s as [|c s IH]; [reflexivity|].
  cbn [lower rstrip]. rewrite IH, isspace_lower_char.
  destruct (rstrip s) as [|d r]; cbn [lower].
  - now destruct (isspace c).
  - reflexivity.
Qed.

Lemma strip_lower (s : string) : strip (lower s) = lower (strip s).
Proof. unfold strip. now rewrite lstrip_lower, rstrip_lower. Qed.

Lemma rstrip_idem (s : string) : rstrip (rstrip s) = rstrip s.
Proof.
  induction s as [|c s IH]; [reflexivity|].
  cbn [rstrip]. destruct (rstrip s) as [|d r] eqn:E.
  - destruct (isspace c) eqn:Ec; [reflexivity|].
    cbn [rstrip]. now rewrite Ec.
  - change (rstrip (String c (String d r)))
      with (match rstrip (String d r) with
            | EmptyString =>
                if isspace c then EmptyString else String c EmptyString
            | String x y => String c (String x y)
            end).
    now rewrite IH.
Qed.

(** What [lstrip] returns does not start with white space. *)
Lemma lstrip_head (s : string) :
  lstrip s = EmptyString
  \/ exists c r, lstrip s = String c r /\ isspace c = false.
Proof.
  induction s as [|c s IH]; [now left|].
  cbn [lstrip]. destruct (isspace c) eqn:E; [exact IH|]. right. eauto.
Qed.

Lemma lstrip_rstrip_head (c : ascii) (r : string) :
  isspace c = false -> lstrip (rstrip (String c r)) = rstrip (String c r).
Proof.
  intros E. cbn [rstrip].
  destruct (rstrip r) as [|d r']; rewrite ?E; cbn [lstrip]; now rewrite E.
Qed.

Lemma strip_idem (s : string) : strip (strip s) = strip s.
Proof.
  unfold strip.
  destruct (lstrip_head s) as [-> | (c & r & -> & E)]; [reflexivity|].
  now rewrite lstrip_rstrip_head, rstrip_idem.
Qed.

Lemma lstrip_all_space (s : string) : all_space s = true -> lstrip s = EmptyString.
Proof.
  induction s as [|c s IH]; [reflexivity|].
  cbn [all_space lstrip]. destruct (isspace c); [exact IH | discriminate].
Qed.

Lemma strip_all_space (s : string) :
  all_space s = true -> lower (strip s) = EmptyString.
Proof. intros H. unfold strip. now rewrite lstrip_all_space. Qed.

(** X1.  Lines 24 to 27.  The configuration loads exactly when
    [PASC_SECRET_KEY] is set to a non-empty text; then neither key is empty,
    the signing key is that text, and the audit key is [PASC_HMAC_KEY] when
    that is set and non-empty and the signing key otherwise.  In every other
    case loading raises [RuntimeError].  The four cases are spelled out: no
    signing key, a signing key alone, and a signing key with an audit key of
    its own, which then is the audit key. *)
Theorem load_config_keys (secret hmac_key : option string) :
  (forall cfg, load_config secret hmac_key = Return cfg ->
     secret = Some (SECRET_KEY cfg)
     /\ truthy_str (SECRET_KEY cfg) = true
     /\ truthy_str (HMAC_KEY cfg) = true
     /\ (HMAC_KEY cfg = SECRET_KEY cfg \/ hmac_key = Some (HMAC_KEY cfg)))
  /\ (secret = None \/ secret = Some EmptyString ->
      load_config secret hmac_key = Raise RuntimeError)
  /\ (forall k, secret = Some k -> truthy_str k = true ->
      hmac_key = None \/ hmac_key = Some EmptyString ->
      load_config secret hmac_key
      = Return {| SECRET_KEY := k; HMAC_KEY := k |})
  /\ (forall k h, secret = Some k -> truthy_str k = true ->
      hmac_key = Some h -> truthy_str h = true ->
      load_config secret hmac_key
      = Return {| SECRET_KEY := k; HMAC_KEY := h |}).
Proof.
  split; [|split; [|split]].
  - intros cfg. unfold load_config.
    destruct secret as [[|c k]|]; cbn; try discriminate.
    destruct hmac_key as [[|d h]|]; cbn; intros [= <-]; cbn; auto.
  - intros [-> | ->]; reflexivity.
  - intros k -> Hk [-> | ->]; unfold load_config; cbn; now rewrite Hk.
  - intros k h -> Hk -> Hh. unfold load_config. cbn. now rewrite Hk, Hh.
Qed.

Lemma load_config_keys_witness :
  load_config None (Some "audit-key") = Raise RuntimeError
  /\ load_config (Some "s3cret") (Some "")
     = Return {| SECRET_KEY := "s3cret"; HMAC_KEY := "s3cret" |}
  /\ load_config (Some "s3cret") (Some "audit-key")
     = Return {| SECRET_KEY := "s3cret"; HMAC_KEY := "audit-key" |}.
Proof.
  destruct (load_config_keys None (Some "audit-key")) as (_ & Hnone & _).
  destruct (load_config_keys (Some "s3cret") (Some "")) as (_ & _ & Hfall & _).
  destruct (load_config_keys (Some "s3cret") (Some "audit-key"))
    as (_ & _ & _ & Hboth).
  split; [|split].
  - apply Hnone. now left.
  - apply (Hfall "s3cret"); [reflexivity | reflexivity | now right].
  - apply (Hboth "s3cret" "audit-key"); reflexivity.
Defined.

Lemma lower_char_ascii (c : ascii) :
  (N_of_ascii c <? 128)%N = true -> (N_of_ascii (lower_char c) <? 128)%N = true.
Proof. destruct c as [[] [] [] [] [] [] [] []]; vm_compute; auto. Qed.

Lemma lower_ascii (s : string) : all_ascii s = true -> all_ascii (lower s) = true.
Proof.
  induction s as [|c s IH]; [reflexivity|].
  cbn [all_ascii lower]. intros [Hc Hs]%andb_prop.
  now rewrite (lower_char_ascii c Hc), IH.
Qed.

Lemma lstrip_ascii (s : string) : all_ascii s = true -> all_ascii (lstrip s) = true.
Proof.
  induction s as [|c s IH]; [reflexivity|].
  cbn [lstrip]. destruct (isspace c); [|auto].
  cbn [all_ascii]. intros [_ Hs]%andb_prop. auto.
Qed.

Lemma rstrip_ascii (s : string) : all_ascii s = true -> all_ascii (rstrip s) = true.
Proof.
  induction s as [|c s IH]; [reflexivity|].
  cbn [all_ascii rstrip]. intros [Hc Hs]%andb_prop.
  specialize (IH Hs). destruct (rstrip s) as [|d r].
  - destruct (isspace c); [reflexivity|]. cbn [all_ascii]. now rewrite Hc.
  - change (all_ascii (String c (String d r)))
      with ((N_of_ascii c <? 128)%N && all_ascii (String d r)).
    now rewrite Hc, IH.
Qed.

Lemma strip_ascii (s : string) : all_ascii s = true -> all_ascii (strip s) = true.
Proof. intros H. unfold strip. now apply rstrip_ascii, lstrip_ascii. Qed.

Section Canonical.
Context `{L : Lib}.

(** X2.  Line 127, for an address typed in ASCII characters, on which
    [email.strip().lower()] is [lower (strip email)].  The canonical form of
    such an address is again ASCII and is a fixed point of [strip] followed by
    [lower], so the email kept in the session, which the form offers again as
    its default (line 124), names the same address when it is submitted
    again: the request gives the same outcome and world as for the text first
    typed. *)
Theorem canonical_email_fixed (cfg : Config) (env : Env) (email_in : string)
    (w : World) :
  all_ascii email_in = true ->
  all_ascii (lower (strip email_in)) = true
  /\ lower (strip (lower (strip email_in))) = lower (strip email_in)
  /\ request_flow cfg env (lower (strip email_in)) w
     = request_flow cfg env email_in w.
Proof.
  intros Hascii.
  assert (lower (strip (lower (strip email_in))) = lower (strip email_in)) as E
    by now rewrite strip_lower, lower_idem, strip_idem.
  split; [now apply lower_ascii, strip_ascii|].
  split; [exact E|]. unfold request_flow. now rewrite E.
Qed.

End Canonical.

Lemma canonical_email_fixed_witness :
  lower (strip "  Ana@Example.com ") = "ana@example.com"
  /\ lower (strip "ana@example.com") = "ana@example.com"
  /\ request_flow (L := Sample.lib) Sample.cfg
       (Sample.env 1700000000 true true) "ana@example.com" Sample.world0
     = request_flow (L := Sample.lib) Sample.cfg
         (Sample.env 1700000000 true true) "  Ana@Example.com " Sample.world0.
Proof.
  destruct (canonical_email_fixed (L := Sample.lib) Sample.cfg
              (Sample.env 1700000000 true true) "  Ana@Example.com "
              Sample.world0 eq_refl) as (_ & Hfix & Hsame).
  split; [reflexivity|]. split; [exact Hfix | exact Hsame].
Defined.

End TextProps.

(** ** The user table *)

Module TableProps.
Import Observe.

Section Table.
Context `{L : Lib}.
Variable cfg : Config.

(** The table after a run: as before, or with the one new row of the
    request. *)
Lemma script_users (env : Env) (wd : Widgets) (w : World) :
  let email := lower (strip (email_input wd)) in
  users (snd (script cfg env wd w)) = users w
  \/ (users w !! email = None
      /\ authenticated (session_state w) = false
      /\ submit wd = true
      /\ users (snd (script cfg env wd w))
         = <[email := UserModel.mk (Z.of_nat (size (users w)) + 1) email
                        (random_base32 env) true (utcnow_isoformat env)]>
             (users w)).
Proof. run_flow; auto. Qed.

(** X3.  Lines 129 to 134.  A run of the script never removes or changes a
    row of the user table: every row is found again as it was, its TOTP
    secret included.  The table grows by at most one row, and a row that is
    new belongs to the canonical form of the submitted address, carries the
    fresh secret and is active. *)
Theorem user_rows_are_kept (env : Env) (wd : Widgets) (w : World) :
  let w' := snd (script cfg env wd w) in
  (forall k u, users w !! k = Some u -> users w' !! k = Some u)
  /\ (size (users w') <= S (size (users w)))%nat
  /\ (forall k u, users w' !! k = Some u ->
      users w !! k = Some u
      \/ (users w !! k = None
          /\ k = lower (strip (email_input wd))
          /\ UserModel.email u = k
          /\ UserModel.totp_secret u = random_base32 env
          /\ UserModel.is_active u = true)).
Proof.
  intros w'. subst w'.
  destruct (script_users env wd w) as [-> | (Hnone & _ & _ & ->)].
  - repeat split; auto.
  - split; [|split].
    + intros k u Hk. rewrite lookup_insert_ne; [exact Hk | congruence].
    + rewrite map_size_insert_None by exact Hnone. lia.
    + intros k u Hk.
      destruct (decide (lower (strip (email_input wd)) = k)) as [<- | Hne].
      * rewrite lookup_insert_eq in Hk. injection Hk as <-. right. auto.
      * rewrite lookup_insert_ne in Hk by exact Hne. now left.
Qed.

Lemma script_keeps_row (env : Env) (wd : Widgets) (w : World) :
  row_on_file w -> row_on_file (snd (script cfg env wd w)).
Proof.
  unfold row_on_file.
  run_flow; intros Hw He; auto; try discriminate;
    rewrite ?lookup_insert_eq; eauto.
  all: try (match goal with
            | |- is_Some (<[?k:=_]> _ !! ?k') =>
                destruct (decide (k = k')) as [<- | Hne];
                [rewrite lookup_insert_eq; eauto
                | rewrite lookup_insert_ne by exact Hne; auto]
            end).
  all: destruct (Hw He) as [? ?]; congruence.
Qed.

Lemma reachable_row_on_file (w : World) : reachable cfg w -> row_on_file w.
Proof.
  induction 1 as [w Hw | w env wd _ IH].
  - unfold row_on_file. rewrite Hw. discriminate.
  - now apply script_keeps_row.
Qed.

(** X4.  Lines 170 to 181.  In every world a session reaches by runs of the
    script, an email on file has its row in the user table, so a verify call
    whose text is not the pending token always comes to the one-time-code
    check of that row: the branch for a missing user is not taken. *)
Theorem totp_path_finds_the_user (env : Env) (token_in : string) (w : World) :
  reachable cfg w ->
  truthy_str (email (session_state w)) = true ->
  strip token_in <> pending_token (session_state w) ->
  exists user,
    users w !! email (session_state w) = Some user
    /\ verify_flow cfg env token_in w
       = if Pyotp.verify (UserModel.totp_secret user) (strip token_in) 1
              (time_time env)
         then
           (set_authenticated true;;
            audit cfg env "login_success_totp"
              [("email", JStr (email (session_state w)))];;
            raise RerunException) w
         else
           (show (st_error "Código inválido");;
            audit cfg env "login_fail"
              [("submitted", JStr (strip token_in));
               ("email", JStr (email (session_state w)))]) w.
Proof.
  intros Hreach He Hp.
  destruct (reachable_row_on_file w Hreach He) as [user Hu].
  exists user. split; [exact Hu|].
  rewrite (VerifyClaims.verify_flow_totp cfg env token_in w He Hp).
  now rewrite Hu.
Qed.

End Table.

Lemma totp_path_finds_the_user_witness :
  exists user,
    users Sample.world1 !! "ana@example.com" = Some user
    /\ verify_flow (L := Sample.lib) Sample.cfg
         (Sample.env 1700000060 true true) "000000" Sample.world1
       = (show (st_error "Código inválido");;
          audit (L := Sample.lib) Sample.cfg (Sample.env 1700000060 true true)
            "login_fail"
            [("submitted", JStr "000000"); ("email", JStr "ana@example.com")])
           Sample.world1.
Proof.
  destruct (totp_path_finds_the_user (L := Sample.lib) Sample.cfg
              (Sample.env 1700000060 true true) "000000" Sample.world1)
    as (user & Hu & Hv).
  - apply reachable_run, reachable_start. reflexivity.
  - reflexivity.
  - vm_compute. discriminate.
  - exists user. split; [exact Hu|]. rewrite Hv. reflexivity.
Defined.

End TableProps.

(** ** What the flows leave alone *)

Module FrameProps.
Import Observe.

Section Frame.
Context `{L : Lib}.
Variable cfg : Config.

(** X5.  Lines 151 to 182.  A verify call changes nothing of the session
    but the flag, which it may set and never clears: the email and the
    pending token stay, and so do the user table and the mail sent.  A call
    that returns normally (every rejection does) leaves the whole session
    state as it was. *)
Theorem verify_flow_frame (env : Env) (token_in : string) (w : World) :
  let r := verify_flow cfg env token_in w in
  email (session_state (snd r)) = email (session_state w)
  /\ pending_token (session_state (snd r)) = pending_token (session_state w)
  /\ users (snd r) = users w
  /\ outbox (snd r) = outbox w
  /\ (authenticated (session_state w) = true ->
      authenticated (session_state (snd r)) = true)
  /\ (fst r = Return tt -> session_state (snd r) = session_state w).
Proof. run_flow; repeat split; auto; discriminate. Qed.

(** X6.  Lines 113 to 120.  While the session is authenticated and the
    logout button is not pressed, a run only greets the user and stops:
    whatever the forms hold and whichever of their buttons is pressed, no
    request and no verification is processed, and the session, the user
    table, the audit file and the mail sent stay as they are. *)
Theorem authenticated_run_is_inert (env : Env) (wd : Widgets) (w : World) :
  authenticated (session_state w) = true ->
  logout_button wd = false ->
  script cfg env wd w
  = (Raise StopException,
     with_page [st_success ("Conectado como " +:+ email (session_state w))] w).
Proof.
  intros Ha Hb. unfold script. rewrite VerifyClaims.bind_run.
  unfold get_session. cbv beta iota. rewrite Ha.
  unfold_flow. cbn. rewrite Hb. reflexivity.
Qed.

(** The mail of a request that is delivered. *)
Lemma request_flow_outbox (env : Env) (email_in : string) (w : World) :
  smtp_ok env = true ->
  let email := lower (strip email_in) in
  outbox (snd (request_flow cfg env email_in w))
  = outbox w ++
    [{| subject := "Tu código de acceso PASC PRO";
        recipients := [email];
        body := "Usa este token para acceder (válido por unos minutos): "
                  +:+ generate_email_token cfg env email |}].
Proof. intros Hs. run_flow; reflexivity. Qed.

(** X7.  Lines 94 to 99 and 135 to 141.  A request whose mail is delivered
    and whose audit entry is written sends exactly one mail, to the
    canonical address alone, and its body ends with the very token that the
    session then holds as its pending token, issued for that address at the
    time of the request. *)
Theorem mailed_token_is_pending (env : Env) (email_in : string) (w : World) :
  smtp_ok env = true ->
  audit_writable env = true ->
  let w' := snd (request_flow cfg env email_in w) in
  exists msg,
    outbox w' = outbox w ++ [msg]
    /\ recipients msg = [email (session_state w')]
    /\ body msg
       = "Usa este token para acceder (válido por unos minutos): "
         +:+ pending_token (session_state w')
    /\ email (session_state w') = lower (strip email_in)
    /\ pending_token (session_state w')
       = generate_email_token cfg env (lower (strip email_in)).
Proof.
  intros Hs Ha. run_flow; eexists; repeat split; reflexivity.
Qed.

(** X8.  Lines 113 to 119 and 151 to 156.  After a logout that completed, a
    run in which the verify button is pressed, whatever the text, only shows
    the request to ask for access first: it returns normally, the session
    keeps its initial values and nothing is written to the audit file. *)
Theorem verify_after_logout (env env' : Env) (wd wd' : Widgets) (w : World) :
  authenticated (session_state w) = true ->
  logout_button wd = true ->
  audit_writable env = true ->
  submit wd' = false ->
  verify wd' = true ->
  let w1 := snd (script cfg env wd w) in
  script cfg env' wd' w1
  = (Return tt,
     with_page [st_error "Primero solicita acceso con tu correo."] w1).
Proof.
  intros Ha Hb Hw Hs Hv w1. subst w1.
  rewrite (SessionClaims.logout_resets cfg env wd w Ha Hb Hw). cbn [snd].
  unfold_flow. cbn. rewrite Hs, Hv. reflexivity.
Qed.

(** X18.  Lines 136 to 143.  When the mail goes out but the audit entry
    cannot be written, the request is reported as a mail error: the mail
    with the token has left all the same, while the session keeps its former
    email and pending token, so that the token just mailed is not the
    session's pending token. *)
Theorem unlogged_request_mail (env : Env) (email_in : string) (w : World) :
  smtp_ok env = true ->
  audit_writable env = false ->
  let email := lower (strip email_in) in
  let r := request_flow cfg env email_in w in
  fst r = Return tt
  /\ outbox (snd r)
     = outbox w ++
       [{| subject := "Tu código de acceso PASC PRO";
           recipients := [email];
           body := "Usa este token para acceder (válido por unos minutos): "
                     +:+ generate_email_token cfg env email |}]
  /\ page (snd r)
     = page w ++
       [st_error "Error enviando el correo. Revisa configuración SMTP."]
  /\ session_state (snd r) = session_state w
  /\ AUDIT_FILE (snd r) = AUDIT_FILE w.
Proof. intros Hs Ha. run_flow; repeat split; reflexivity. Qed.

End Frame.

Lemma unlogged_request_mail_witness :
  let r := request_flow (L := Sample.lib) Sample.cfg
             (Sample.env 1700000000 true false) "ana@example.com"
             Sample.world0 in
  length (outbox (snd r)) = 1%nat
  /\ session_state (snd r) = initial_session.
Proof.
  destruct (unlogged_request_mail (L := Sample.lib) Sample.cfg
              (Sample.env 1700000000 true false) "ana@example.com"
              Sample.world0 eq_refl eq_refl) as (_ & Ho & _ & Hs & _).
  cbv zeta. split.
  - rewrite Ho. reflexivity.
  - exact Hs.
Defined.

Lemma authenticated_run_is_inert_witness :
  script (L := Sample.lib) Sample.cfg (Sample.env 1700000090 true true)
    (Sample.request_click "eve@example.com") Sample.world2
  = (Raise StopException,
     with_page [st_success "Conectado como ana@example.com"] Sample.world2).
Proof.
  apply (authenticated_run_is_inert (L := Sample.lib)); reflexivity.
Defined.

Lemma mailed_token_is_pending_witness :
  exists msg,
    outbox (snd (request_flow (L := Sample.lib) Sample.cfg
                   (Sample.env 1700000000 true true) "  Ana@Example.com "
                   Sample.world0))
    = [msg]
    /\ recipients msg = ["ana@example.com"]
    /\ body msg
       = "Usa este token para acceder (válido por unos minutos): "
         +:+ Sample.login_token.
Proof.
  destruct (mailed_token_is_pending (L := Sample.lib) Sample.cfg
              (Sample.env 1700000000 true true) "  Ana@Example.com "
              Sample.world0 eq_refl eq_refl)
    as (msg & Ho & Hr & Hb & He & Hp).
  exists msg. split; [exact Ho | split].
  - rewrite Hr, He. reflexivity.
  - rewrite Hb, Hp. reflexivity.
Defined.

Lemma verify_after_logout_witness :
  let w1 := snd (script (L := Sample.lib) Sample.cfg
                   (Sample.env 1700000120 true true) Sample.logout_click
                   Sample.world2) in
  script (L := Sample.lib) Sample.cfg (Sample.env 1700000130 true true)
    (Sample.verify_click Sample.login_token) w1
  = (Return tt,
     with_page [st_error "Primero solicita acceso con tu correo."] w1).
Proof.
  apply (verify_after_logout (L := Sample.lib)); reflexivity.
Defined.

End FrameProps.

(** ** The life of a token *)

Module TokenProps.
Import Observe Itsdangerous ItsdangerousFacts.

Section Tokens.
Context `{L : Lib}.
Variable cfg : Config.

Hypothesis base64_decode_encode :
  forall b, base64_decode (base64_encode b) = Some b.
Hypothesis base64_no_sep :
  forall b, rsplit_sep (base64_encode b) = None.

(** Tokens for one address issued at different clock readings differ. *)
Lemma generate_email_token_time (env1 env2 : Env) (email : string) :
  0 <= time_time env1 < 2 ^ 64 ->
  0 <= time_time env2 < 2 ^ 64 ->
  generate_email_token cfg env1 email = generate_email_token cfg env2 email ->
  time_time env1 = time_time env2.
Proof.
  intros H1 H2 E. unfold generate_email_token, serializer_dumps in E.
  apply (f_equal (fun s => timestamp_unsign (SECRET_KEY cfg) s 0
                             (time_time env1))) in E.
  rewrite !(timestamp_unsign_sign (SECRET_KEY cfg) base64_decode_encode
              base64_no_sep) in E by assumption.
  rewrite Z.sub_diag in E. cbn in E.
  destruct (Z.gtb_spec (time_time env1 - time_time env2) 0);
    [discriminate|].
  destruct (Z.ltb_spec (time_time env1 - time_time env2) 0);
    [discriminate|]. lia.
Qed.

(** X9.  Lines 84 to 92.  A token issued for an address at one clock
    reading verifies at another exactly while its age is between 0 and
    [max_age], both ends included: within that span the call returns the
    payload with the address and the purpose [login], and one second past
    [max_age], or before issuance, it returns [None]. *)
Theorem issued_token_lifetime (issue_env env : Env) (email : string)
    (max_age : Z) :
  (let payload := JDict [("email", JStr email); ("purpose", JStr "login")] in
   load_payload (dump_payload payload) = Some payload) ->
  0 <= time_time issue_env < 2 ^ 64 ->
  let age := time_time env - time_time issue_env in
  verify_email_token cfg env (generate_email_token cfg issue_env email) max_age
  = if (0 <=? age) && (age <=? max_age)
    then Return (Some (JDict [("email", JStr email); ("purpose", JStr "login")]))
    else Return None.
Proof.
  intros Hload Hi age.
  unfold verify_email_token, generate_email_token, serializer_loads,
    serializer_dumps.
  rewrite (timestamp_unsign_sign (SECRET_KEY cfg) base64_decode_encode
             base64_no_sep) by assumption.
  fold age.
  destruct (Z.gtb_spec age max_age), (Z.ltb_spec age 0),
    (Z.leb_spec 0 age), (Z.leb_spec age max_age); cbn; try lia;
    try reflexivity.
  cbv zeta in Hload. now rewrite Hload.
Qed.

End Tokens.

Lemma issued_token_lifetime_witness :
  verify_email_token (L := Sample.lib) Sample.cfg
    (Sample.env 1700000600 true true) Sample.login_token 600
  = Return (Some (JDict [("email", JStr "ana@example.com");
                         ("purpose", JStr "login")]))
  /\ verify_email_token (L := Sample.lib) Sample.cfg
       (Sample.env 1700000601 true true) Sample.login_token 600
     = Return None.
Proof.
  split.
  - apply (issued_token_lifetime (L := Sample.lib) Sample.cfg
             SampleFacts.decode_encode SampleFacts.encode_no_sep
             (Sample.env 1700000000 true true)
             (Sample.env 1700000600 true true) "ana@example.com" 600);
      [reflexivity | cbn; lia].
  - apply (issued_token_lifetime (L := Sample.lib) Sample.cfg
             SampleFacts.decode_encode SampleFacts.encode_no_sep
             (Sample.env 1700000000 true true)
             (Sample.env 1700000601 true true) "ana@example.com" 600);
      [reflexivity | cbn; lia].
Defined.

End TokenProps.

(** ** Requests and verifications in sequence *)

Module JourneyProps.
Import Observe Itsdangerous ItsdangerousFacts.

Section Journey.
Context `{L : Lib}.
Variable cfg : Config.

(** A run in which only the request button is pressed is the request
    flow. *)
Lemma script_request_only (env : Env) (wd : Widgets) (w : World) :
  authenticated (session_state w) = false ->
  submit wd = true ->
  verify wd = false ->
  script cfg env wd w = request_flow cfg env (email_input wd) w.
Proof. intros Ha Hs Hv. run_flow; reflexivity. Qed.

(** A run in which only the verify button is pressed is the verify flow. *)
Lemma script_verify_only (env : Env) (wd : Widgets) (w : World) :
  authenticated (session_state w) = false ->
  submit wd = false ->
  verify wd = true ->
  script cfg env wd w = verify_flow cfg env (token_input wd) w.
Proof.
  intros Ha Hs Hv. unfold script. rewrite VerifyClaims.bind_run.
  unfold get_session. cbv beta iota. rewrite Ha, Hs, Hv.
  reflexivity.
Qed.

(** X12.  Lines 159 to 167.  On the signature path a token that verifies
    but was issued for another address is refused: the call shows the token
    error and writes [login_fail_token], whatever the token's purpose. *)
Theorem token_for_another_address (env : Env) (token_in : string) (w : World)
    (other : string) (purpose : json) :
  let email := email (session_state w) in
  truthy_str email = true ->
  strip token_in = pending_token (session_state w) ->
  serializer_loads (SECRET_KEY cfg) (strip token_in) default_max_age
    (time_time env)
  = Return (JDict [("email", JStr other); ("purpose", purpose)]) ->
  other <> email ->
  verify_flow cfg env token_in w
  = (show (st_error "Token inválido o expirado");;
     audit cfg env "login_fail_token"
       [("submitted", JStr (strip token_in)); ("email", JStr email)]) w.
Proof.
  intros email He Hp Hl Hne.
  rewrite (VerifyClaims.verify_flow_signature cfg env token_in w
             (Some (JDict [("email", JStr other); ("purpose", purpose)]))
             false He Hp).
  - reflexivity.
  - unfold verify_email_token. now rewrite Hl.
  - cbn. fold email. now rewrite (proj2 (String.eqb_neq other email) Hne).
Qed.

(** X13.  Lines 127 to 141 and 154 to 156.  The request form does not
    refuse an address that is empty or white space only: the canonical
    address is the empty text, a row is kept under it, the mail goes to it
    and the session holds it with a pending token.  Every verify call that
    follows is answered with the request to ask for access first, and leaves
    the world otherwise as it is. *)
Theorem blank_address_request (env : Env) (email_in : string) (w : World) :
  all_space email_in = true ->
  smtp_ok env = true ->
  audit_writable env = true ->
  let w1 := snd (request_flow cfg env email_in w) in
  email (session_state w1) = EmptyString
  /\ pending_token (session_state w1) = generate_email_token cfg env EmptyString
  /\ is_Some (users w1 !! EmptyString)
  /\ (exists msg, last (outbox w1) = Some msg
                  /\ recipients msg = [EmptyString])
  /\ (forall env' token_in,
        verify_flow cfg env' token_in w1
        = (Return tt,
           with_page [st_error "Primero solicita acceso con tu correo."] w1)).
Proof.
  intros Hblank Hs Ha w1.
  assert (lower (strip email_in) = EmptyString) as E
    by now apply TextProps.strip_all_space.
  destruct (RequestClaims.request_flow_delivered cfg env email_in w Hs Ha)
    as (_ & Hsess & _).
  assert (Ho := FrameProps.request_flow_outbox cfg env email_in w Hs).
  cbv zeta in Ho. fold w1 in Hsess, Ho. rewrite E in Hsess, Ho.
  assert (Hu := RequestClaims.request_flow_users cfg env email_in w).
  cbv zeta in Hu. fold w1 in Hu. rewrite E in Hu.
  repeat split.
  - now rewrite Hsess.
  - now rewrite Hsess.
  - rewrite Hu. destruct (users w !! EmptyString) eqn:Eu.
    + rewrite Eu. eauto.
    + rewrite lookup_insert_eq. eauto.
  - eexists. split.
    + rewrite Ho. apply last_snoc.
    + reflexivity.
  - intros env' token_in.
    apply VerifyClaims.verify_flow_no_email. now rewrite Hsess.
Qed.

(** X14.  Lines 51 and 170 to 176.  The verify flow never reads the
    [is_active] column: with the user's row marked inactive the call has the
    same outcome, the same session, the same audit entries and the same page
    as with the row as it is. *)
Theorem inactive_user_verifies_alike (env : Env) (token_in : string)
    (w : World) (user : UserModel.t) :
  users w !! email (session_state w) = Some user ->
  let w' := with_users (<[email (session_state w) := deactivate user]> (users w))
              w in
  let r := verify_flow cfg env token_in w in
  let r' := verify_flow cfg env token_in w' in
  fst r' = fst r
  /\ session_state (snd r') = session_state (snd r)
  /\ AUDIT_FILE (snd r') = AUDIT_FILE (snd r)
  /\ page (snd r') = page (snd r).
Proof.
  intros Hu w' r r'. subst w' r r'. unfold with_users.
  unfold_flow. cbn.
  repeat (case_match; cbn in *; simplify_map_eq/=);
    repeat split; reflexivity.
Qed.

Hypothesis base64_decode_encode :
  forall b, base64_decode (base64_encode b) = Some b.
Hypothesis base64_no_sep :
  forall b, rsplit_sep (base64_encode b) = None.

(** X10.  Lines 126 to 164.  The mailed token logs the user in.  From an
    unauthenticated session, a run in which a non-empty address is requested
    (mail delivered, audit written), followed by a run in which the pending
    token is submitted within 600 seconds, ends in the rerun with the
    session authenticated for that address; the audit file has grown by
    [request_access] and [login_success], in this order. *)
Theorem mailed_token_logs_in (env0 env1 : Env) (wd0 wd1 : Widgets) (w : World) :
  let email := lower (strip (email_input wd0)) in
  let token := generate_email_token cfg env0 email in
  authenticated (session_state w) = false ->
  submit wd0 = true -> verify wd0 = false ->
  submit wd1 = false -> verify wd1 = true ->
  token_input wd1 = token ->
  strip token = token ->
  truthy_str email = true ->
  smtp_ok env0 = true ->
  audit_writable env0 = true ->
  audit_writable env1 = true ->
  0 <= time_time env0 < 2 ^ 64 ->
  0 <= time_time env1 - time_time env0 <= 600 ->
  (let payload := JDict [("email", JStr email); ("purpose", JStr "login")] in
   load_payload (dump_payload payload) = Some payload) ->
  let r := script cfg env1 wd1 (snd (script cfg env0 wd0 w)) in
  fst r = Raise RerunException
  /\ session_state (snd r)
     = {| email := email; pending_token := token; authenticated := true |}
  /\ AUDIT_FILE (snd r)
     = AUDIT_FILE w ++
       [audit_entry cfg env0 "request_access" [("email", JStr email)];
        audit_entry cfg env1 "login_success" [("email", JStr email)]].
Proof.
  intros email token Ha Hs0 Hv0 Hs1 Hv1 Htok Hstrip He Hsmtp Hw0 Hw1 Hclock
    Hage Hload r. subst r.
  rewrite (script_request_only env0 wd0 w Ha Hs0 Hv0).
  destruct (RequestClaims.request_flow_delivered cfg env0 (email_input wd0) w
              Hsmtp Hw0) as (_ & Hsess & Haudit & _).
  fold email token in Hsess, Haudit. rewrite Ha in Hsess.
  set (w1 := snd (request_flow cfg env0 (email_input wd0) w)) in *.
  rewrite (script_verify_only env1 wd1 w1) by (rewrite ?Hsess; auto).
  rewrite (VerifyClaims.verify_flow_signature cfg env1 (token_input wd1) w1
             (Some (JDict [("email", JStr email); ("purpose", JStr "login")]))
             true).
  - rewrite VerifyClaims.accept_run, Hw1. cbv zeta. cbn.
    rewrite Hsess, Haudit, <- app_assoc. cbn. auto.
  - now rewrite Hsess.
  - now rewrite Htok, Hstrip, Hsess.
  - rewrite Htok, Hstrip. unfold verify_email_token, token,
      generate_email_token.
    now rewrite (serializer_loads_dumps (SECRET_KEY cfg) base64_decode_encode
                   base64_no_sep) by assumption.
  - rewrite Hsess. cbn. now rewrite String.eqb_refl.
Qed.

(** X11.  Lines 135 to 141 and 159.  A new request replaces the pending
    token.  After two delivered requests for the same address at different
    clock readings, the session holds the second token only: the first one,
    submitted again, is no longer taken as a token but handed to the
    one-time-code check of the user's row. *)
Theorem new_request_replaces_token (env1 env2 env3 : Env) (email_in : string)
    (w : World) :
  let email := lower (strip email_in) in
  let w1 := snd (request_flow cfg env1 email_in w) in
  let w2 := snd (request_flow cfg env2 email_in w1) in
  let old := pending_token (session_state w1) in
  smtp_ok env1 = true -> audit_writable env1 = true ->
  smtp_ok env2 = true -> audit_writable env2 = true ->
  0 <= time_time env1 < 2 ^ 64 ->
  0 <= time_time env2 < 2 ^ 64 ->
  time_time env1 <> time_time env2 ->
  truthy_str email = true ->
  strip old = old ->
  pending_token (session_state w2) = generate_email_token cfg env2 email
  /\ pending_token (session_state w2) <> old
  /\ exists user,
       users w2 !! email = Some user
       /\ verify_flow cfg env3 old w2
          = if Pyotp.verify (UserModel.totp_secret user) old 1 (time_time env3)
            then
              (set_authenticated true;;
               audit cfg env3 "login_success_totp" [("email", JStr email)];;
               raise RerunException) w2
            else
              (show (st_error "Código inválido");;
               audit cfg env3 "login_fail"
                 [("submitted", JStr old); ("email", JStr email)]) w2.
Proof.
  intros email w1 w2 old Hs1 Ha1 Hs2 Ha2 Hc1 Hc2 Hne He Hstrip.
  destruct (RequestClaims.request_flow_delivered cfg env1 email_in w Hs1 Ha1)
    as (_ & Hsess1 & _).
  destruct (RequestClaims.request_flow_delivered cfg env2 email_in w1 Hs2 Ha2)
    as (_ & Hsess2 & _).
  fold email w1 in Hsess1. fold email w2 in Hsess2.
  assert (pending_token (session_state w2) <> old) as Hdiff.
  { subst old. rewrite Hsess1, Hsess2. cbn. intros E. apply Hne.
    now apply (TokenProps.generate_email_token_time cfg base64_decode_encode
                 base64_no_sep env1 env2 email). }
  split; [now rewrite Hsess2|]. split; [exact Hdiff|].
  assert (is_Some (users w2 !! email)) as [user Hu].
  { subst w2. rewrite RequestClaims.request_flow_users. cbv zeta. fold email.
    destruct (users w1 !! email) eqn:E; [rewrite E; eauto|].
    rewrite lookup_insert_eq. eauto. }
  exists user. split; [exact Hu|].
  rewrite (VerifyClaims.verify_flow_totp cfg env3 old w2).
  - rewrite Hsess2. cbn [App.email]. rewrite Hu, Hstrip. reflexivity.
  - now rewrite Hsess2.
  - rewrite Hstrip. congruence.
Qed.

End Journey.

Lemma token_for_another_address_witness :
  verify_flow (L := Sample.lib) Sample.cfg (Sample.env 1700000060 true true)
    SampleMore.bob_token SampleMore.world_bob
  = (show (st_error "Token inválido o expirado");;
     audit (L := Sample.lib) Sample.cfg (Sample.env 1700000060 true true)
       "login_fail_token"
       [("submitted", JStr SampleMore.bob_token);
        ("email", JStr "ana@example.com")]) SampleMore.world_bob.
Proof.
  apply (token_for_another_address (L := Sample.lib) Sample.cfg
           (Sample.env 1700000060 true true) SampleMore.bob_token
           SampleMore.world_bob "bob@example.com" (JStr "login")).
  - reflexivity.
  - vm_compute. reflexivity.
  - vm_compute. reflexivity.
  - discriminate.
Defined.

Lemma blank_address_request_witness :
  let w1 := snd (request_flow (L := Sample.lib) Sample.cfg
                   (Sample.env 1700000000 true true) "   " Sample.world0) in
  email (session_state w1) = EmptyString
  /\ is_Some (users w1 !! EmptyString)
  /\ verify_flow (L := Sample.lib) Sample.cfg
       (Sample.env 1700000060 true true) "666668" w1
     = (Return tt,
        with_page [st_error "Primero solicita acceso con tu correo."] w1).
Proof.
  destruct (blank_address_request (L := Sample.lib) Sample.cfg
              (Sample.env 1700000000 true true) "   " Sample.world0
              eq_refl eq_refl eq_refl) as (He & _ & Hu & _ & Hv).
  cbv zeta. split; [exact He | split; [exact Hu | apply Hv]].
Defined.

Lemma inactive_user_verifies_alike_witness :
  let w' := with_users (<["ana@example.com" := deactivate SampleMore.ana]>
                          (users Sample.world1)) Sample.world1 in
  fst (verify_flow (L := Sample.lib) Sample.cfg
         (Sample.env 1700000060 true true) "666668" w')
  = Raise RerunException
  /\ authenticated
       (session_state
          (snd (verify_flow (L := Sample.lib) Sample.cfg
                  (Sample.env 1700000060 true true) "666668" w')))
     = true.
Proof.
  destruct (inactive_user_verifies_alike (L := Sample.lib) Sample.cfg
              (Sample.env 1700000060 true true) "666668" Sample.world1
              SampleMore.ana) as (H1 & H2 & _).
  - vm_compute. reflexivity.
  - cbv zeta. split.
    + etransitivity; [exact H1 | vm_compute; reflexivity].
    + etransitivity; [exact (f_equal authenticated H2) | vm_compute; reflexivity].
Defined.

Lemma mailed_token_logs_in_witness :
  let r := script (L := Sample.lib) Sample.cfg
             (Sample.env 1700000600 true true)
             (Sample.verify_click Sample.login_token) Sample.world1 in
  fst r = Raise RerunException
  /\ authenticated (session_state (snd r)) = true
  /\ length (AUDIT_FILE (snd r)) = 2%nat.
Proof.
  destruct (mailed_token_logs_in (L := Sample.lib) Sample.cfg
              SampleFacts.decode_encode SampleFacts.encode_no_sep
              (Sample.env 1700000000 true true)
              (Sample.env 1700000600 true true)
              (Sample.request_click "  Ana@Example.com ")
              (Sample.verify_click Sample.login_token) Sample.world0)
    as (H1 & H2 & H3); try reflexivity; try (cbn; lia).
  cbv zeta. split; [exact H1 | split].
  - unfold Sample.world1. now rewrite H2.
  - unfold Sample.world1. now rewrite H3.
Defined.

Lemma new_request_replaces_token_witness :
  pending_token (session_state SampleMore.world1_again) <> Sample.login_token
  /\ verify_flow (L := Sample.lib) Sample.cfg
       (Sample.env 1700000360 true true) Sample.login_token
       SampleMore.world1_again
     = (show (st_error "Código inválido");;
        audit (L := Sample.lib) Sample.cfg (Sample.env 1700000360 true true)
          "login_fail"
          [("submitted", JStr Sample.login_token);
           ("email", JStr "ana@example.com")]) SampleMore.world1_again.
Proof.
  destruct (new_request_replaces_token (L := Sample.lib) Sample.cfg
              SampleFacts.decode_encode SampleFacts.encode_no_sep
              (Sample.env 1700000000 true true)
              (Sample.env 1700000300 true true)
              (Sample.env 1700000360 true true) "ana@example.com"
              Sample.world0)
    as (_ & Hdiff & user & Hu & Hv); try reflexivity; try (cbn; lia).
  split.
  - exact Hdiff.
  - etransitivity; [exact Hv|].
    assert (Some user = Some SampleMore.ana) as [= ->]
      by (rewrite <- Hu; vm_compute; reflexivity).
    vm_compute. reflexivity.
Defined.

End JourneyProps.

(** ** What is written to the audit file *)

Module AuditProps.
Import Observe.

Lemma has_newline_app (a b : string) :
  has_newline (a +:+ b) = has_newline a || has_newline b.
Proof.
  induction a as [|c a IH]; [reflexivity|].
  change (has_newline (String c (a +:+ b))
          = has_newline (String c a) || has_newline b).
  cbn [has_newline]. now rewrite IH, orb_assoc.
Qed.

Lemma escape_char_no_newline (c : ascii) : has_newline (escape_char c) = false.
Proof. destruct c as [[] [] [] [] [] [] [] []]; vm_compute; reflexivity. Qed.

Lemma escape_no_newline (s : string) : has_newline (escape s) = false.
Proof.
  induction s as [|c s IH]; [reflexivity|].
  cbn [escape]. now rewrite has_newline_app, escape_char_no_newline, IH.
Qed.

(** A dumped string holds no line feed, whatever the string. *)
Lemma encode_basestring_no_newline (s : string) :
  has_newline (encode_basestring s) = false.
Proof.
  unfold encode_basestring.
  change (has_newline (String quote (escape s +:+ String quote "")) = false).
  cbn [has_newline]. now rewrite has_newline_app, escape_no_newline.
Qed.

Lemma dumps_dict (d : list (string * json)) :
  dumps (JDict d) = "{" +:+ dict_items d +:+ "}".
Proof. reflexivity. Qed.

Lemma dict_items_no_newline (d : list (string * json)) :
  string_valued d -> has_newline (dict_items d) = false.
Proof.
  induction 1 as [|[k v] r [s Hv] _ IH]; [reflexivity|].
  cbn [snd] in Hv. subst v.
  assert (has_newline (encode_basestring k +:+ ": " +:+ dumps (JStr s)) = false)
    as Hhead.
  { rewrite !has_newline_app. cbn [dumps].
    now rewrite !encode_basestring_no_newline. }
  destruct r as [|kv r]; [exact Hhead|].
  change (dict_items ((k, JStr s) :: kv :: r))
    with (encode_basestring k +:+ ": " +:+ dumps (JStr s) +:+ ", "
          +:+ dict_items (kv :: r)).
  rewrite !has_newline_app in *. cbn [dumps] in *.
  rewrite !encode_basestring_no_newline in *. now rewrite IH.
Qed.

(** The text [audit] signs holds no line feed. *)
Lemma audit_record_no_newline (env : Env) (event : string)
    (details : list (string * json)) :
  string_valued details ->
  has_newline (dumps (audit_record env event details)) = false.
Proof.
  intros Hd. unfold audit_record. rewrite dumps_dict.
  change (dict_items
            [("timestamp", JStr (utcnow_isoformat env +:+ "Z"));
             ("event", JStr event); ("details", JDict details)])
    with (encode_basestring "timestamp" +:+ ": "
          +:+ encode_basestring (utcnow_isoformat env +:+ "Z") +:+ ", "
          +:+ encode_basestring "event" +:+ ": " +:+ encode_basestring event
          +:+ ", " +:+ encode_basestring "details" +:+ ": "
          +:+ dumps (JDict details)).
  rewrite dumps_dict, !has_newline_app, !encode_basestring_no_newline.
  now rewrite dict_items_no_newline.
Qed.

Section Entries.
Context `{L : Lib}.
Variable cfg : Config.

Lemma script_entry_single_line (env : Env) (e : AuditEntry) :
  script_entry cfg env e -> single_line (entry_line e).
Proof.
  intros (event & details & -> & _ & Hd).
  exists ("{" +:+ encode_basestring "record" +:+ ": "
          +:+ dumps (audit_record env event details) +:+ ", "
          +:+ encode_basestring "hmac" +:+ ": "
          +:+ encode_basestring
                (sign_record cfg (dumps (audit_record env event details)))
          +:+ "}").
  split.
  - rewrite AuditClaims.entry_line_holds_signed_text.
    cbn [record hmac audit_entry]. now rewrite !AuditClaims.append_assoc.
  - rewrite !has_newline_app, !encode_basestring_no_newline.
    now rewrite audit_record_no_newline.
Qed.

(** What a run appends: at most two entries, each built by [audit] for one
    of the event names with details that are strings. *)
Lemma script_appends_script_entries (env : Env) (wd : Widgets) (w : World) :
  exists new,
    AUDIT_FILE (snd (script cfg env wd w)) = AUDIT_FILE w ++ new
    /\ (length new <= 2)%nat
    /\ Forall (script_entry cfg env) new.
Proof.
  run_flow.
  all: rewrite <- ?app_assoc.
  all: first
    [ exists []; split; [now rewrite app_nil_r | split; [cbn; lia | constructor]]
    | eexists; split; [reflexivity |]; split; [cbn; lia |];
      repeat (constructor; [script_entry_tac|]); constructor ].
Qed.

(** X15.  Lines 73 to 82 and the calls of [audit].  A run of the script
    appends at most two entries to the audit file and changes none that is
    there.  Each appended entry is for one of the six event names
    [request_access], [login_success], [login_success_totp],
    [login_fail_token], [login_fail], [logout]; its record holds the clock's
    UTC reading followed by [Z], the event name and details that are all
    strings; and its tag verifies. *)
Theorem script_audit_entries (env : Env) (wd : Widgets) (w : World) :
  exists new,
    AUDIT_FILE (snd (script cfg env wd w)) = AUDIT_FILE w ++ new
    /\ (length new <= 2)%nat
    /\ Forall
         (fun e =>
            exists event details,
              In event event_kinds
              /\ string_valued details
              /\ record e
                 = JDict [("timestamp", JStr (utcnow_isoformat env +:+ "Z"));
                          ("event", JStr event);
                          ("details", JDict details)]
              /\ entry_verifies cfg e = true) new.
Proof.
  destruct (script_appends_script_entries env wd w) as (new & Hnew & Hlen & Hall).
  exists new. split; [exact Hnew | split; [exact Hlen |]].
  eapply Forall_impl; [exact Hall|].
  intros e (event & details & -> & Hev & Hd).
  exists event, details. repeat split; auto.
  apply AuditClaims.audit_entry_verifies.
Qed.

(** X16.  Lines 79 to 82.  Every entry a run of the script appends is
    written as one line of the audit file: the written text ends with a line
    feed and holds no other, whatever characters the submitted code or the
    address contain, since [json.dumps] escapes the control characters. *)
Theorem script_audit_lines (env : Env) (wd : Widgets) (w : World) :
  exists new,
    AUDIT_FILE (snd (script cfg env wd w)) = AUDIT_FILE w ++ new
    /\ Forall (fun e => single_line (entry_line e)) new.
Proof.
  destruct (script_appends_script_entries env wd w) as (new & Hnew & _ & Hall).
  exists new. split; [exact Hnew|].
  eapply Forall_impl; [exact Hall|].
  intros e. apply script_entry_single_line.
Qed.

End Entries.

End AuditProps.

(** ** One-time codes and the clock *)

Module DriftProps.

(** X17.  Line 173.  With the window of 1 that the verify flow passes, the
    one-time code of a clock reading is accepted at every reading at most 30
    seconds before or after it. *)
Theorem totp_drift_tolerance `{L : Lib} (secret : string) (issued now : Z) :
  -30 <= now - issued <= 30 ->
  Pyotp.verify secret (Pyotp.at_ secret issued 0) 1 now = true.
Proof.
  intros Hd. rewrite TotpClaims.verify_window_one. unfold Pyotp.at_.
  unfold Pyotp.timecode, Pyotp.interval.
  assert (issued / 30 = now / 30 + -1 \/ issued / 30 = now / 30 + 0
          \/ issued / 30 = now / 30 + 1) as Hstep.
  { pose proof (Z.div_mod issued 30 ltac:(lia)).
    pose proof (Z.div_mod now 30 ltac:(lia)).
    pose proof (Z.mod_pos_bound issued 30 ltac:(lia)).
    pose proof (Z.mod_pos_bound now 30 ltac:(lia)). lia. }
  rewrite Z.add_0_r at 1.
  destruct Hstep as [-> | [-> | ->]];
    rewrite ?Z.add_0_r, String.eqb_refl; cbn [orb];
    rewrite ?orb_true_r; reflexivity.
Qed.

Lemma totp_drift_tolerance_witness :
  Pyotp.verify (L := Sample.lib) "JBSWY3DPEHPK3PXP"
    (Pyotp.at_ (L := Sample.lib) "JBSWY3DPEHPK3PXP" 1700000060 0) 1 1700000090
  = true.
Proof.
  apply (totp_drift_tolerance (L := Sample.lib)). lia.
Defined.

End DriftProps.

(** * The audit tag and the paths of a verify call *)

(** ** What the tag of an audit entry binds *)

Module AuditBinding.
Import Observe JsonRead.

















End AuditBinding.

(** ** The two paths of a verify call *)

Module PathClaims.
Import Itsdangerous Observe.

Section Paths.
Context `{L : Lib}.
Variable cfg : Config.

Lemma script_keeps_pending_login (env : Env) (wd : Widgets) (w : World) :
  pending_login cfg (session_state w) ->
  pending_login cfg (session_state (snd (script cfg env wd w))).
Proof.
  unfold pending_login. run_flow; intros Hw; auto; try discriminate.
  all: intros _; exists (time_time env); reflexivity.
Qed.

Lemma reachable_pending_login (w : World) :
  reachable cfg w -> pending_login cfg (session_state w).
Proof.
  induction 1 as [w Hw | w env wd _ IH].
  - rewrite Hw. unfold pending_login. discriminate.
  - now apply script_keeps_pending_login.
Qed.


(** A text that holds the separator is none of the codes of the window when
    these hold none. *)
Lemma separated_text_is_no_code (env : Env) (secret text : string) :
  (forall i, -1 <= i <= 1 ->
     rsplit_sep (Pyotp.at_ secret (time_time env) i) = None) ->
  rsplit_sep text <> None ->
  Pyotp.verify secret text 1 (time_time env) = false.
Proof.
  intros Hcodes Htext. rewrite TotpClaims.verify_window_one.
  assert (forall i, -1 <= i <= 1 ->
            String.eqb text (Pyotp.at_ secret (time_time env) i) = false) as H.
  { intros i Hi. apply String.eqb_neq. intros ->. now apply Htext, Hcodes. }
  rewrite !H by lia. reflexivity.
Qed.

End Paths.



(** C9, as the code has it.  With an email on file, the signature path is
    taken exactly when the submitted text is the pending token.  On it the
    payload is asked for its email only: a token that [loads] accepts (the
    tag verifies, the token is not expired, the payload decodes) is accepted
    when the payload's email is the session's and refused with
    [login_fail_token] when it is another, whatever stands in the purpose
    field; a token whose tag or age [loads] rejects is refused.  Any other
    text, a signed token included, goes to the one-time-code check and never
    to [loads].  In every world a session reaches by runs of the script the
    pending token is the one issued for the session's email with purpose
    [login], and a text other than it that holds the separator, as every
    signed token does, is refused with [login_fail] (of the library: no
    separator in the base64 alphabet nor in the user's codes of the
    window). *)
Theorem signature_path_reads_email_only `{L : Lib} (cfg : Config) (env : Env)
    (token_in : string) (w : World) :
  let email := email (session_state w) in
  truthy_str email = true ->
  (strip token_in = pending_token (session_state w) ->
   (forall address purpose,
      serializer_loads (SECRET_KEY cfg) (strip token_in) default_max_age
        (time_time env)
      = Return (JDict [("email", JStr address); ("purpose", purpose)]) ->
      verify_flow cfg env token_in w
      = if String.eqb address email then
          (set_authenticated true;;
           audit cfg env "login_success" [("email", JStr email)];;
           raise RerunException) w
        else
          (show (st_error "Token inválido o expirado");;
           audit cfg env "login_fail_token"
             [("submitted", JStr (strip token_in)); ("email", JStr email)]) w)
   /\ (forall e,
         serializer_loads (SECRET_KEY cfg) (strip token_in) default_max_age
           (time_time env)
         = Raise e ->
         is_BadSignature e = true ->
         verify_flow cfg env token_in w
         = (show (st_error "Token inválido o expirado");;
            audit cfg env "login_fail_token"
              [("submitted", JStr (strip token_in)); ("email", JStr email)])
             w))
  /\ (strip token_in <> pending_token (session_state w) ->
      verify_flow cfg env token_in w
      = match users w !! email with
        | Some user =>
            if Pyotp.verify (UserModel.totp_secret user) (strip token_in) 1
                 (time_time env)
            then
              (set_authenticated true;;
               audit cfg env "login_success_totp" [("email", JStr email)];;
               raise RerunException) w
            else
              (show (st_error "Código inválido");;
               audit cfg env "login_fail"
                 [("submitted", JStr (strip token_in)); ("email", JStr email)])
                w
        | None => show (st_error "Usuario no encontrado") w
        end)
  /\ (reachable cfg w ->
      (exists issued,
         pending_token (session_state w)
         = serializer_dumps (SECRET_KEY cfg)
             (JDict [("email", JStr email); ("purpose", JStr "login")])
             issued)
      /\ ((forall b, rsplit_sep (base64_encode b) = None) ->
          (forall user i,
             users w !! email = Some user ->
             -1 <= i <= 1 ->
             rsplit_sep
               (Pyotp.at_ (UserModel.totp_secret user) (time_time env) i)
             = None) ->
          strip token_in <> pending_token (session_state w) ->
          rsplit_sep (strip token_in) <> None ->
          verify_flow cfg env token_in w
          = (show (st_error "Código inválido");;
             audit cfg env "login_fail"
               [("submitted", JStr (strip token_in)); ("email", JStr email)])
              w)).
Proof.
  intros email He. split; [|split].
  - intros Hp. split.
    + intros address purpose Hl.
      apply (VerifyClaims.verify_flow_signature cfg env token_in w
               (Some (JDict [("email", JStr address); ("purpose", purpose)]))
               (String.eqb address email) He Hp).
      * unfold verify_email_token. now rewrite Hl.
      * reflexivity.
    + intros e Hl He'.
      apply (VerifyClaims.verify_flow_signature cfg env token_in w None false
               He Hp).
      * unfold verify_email_token. now rewrite Hl, He'.
      * reflexivity.
  - intros Hp. now apply VerifyClaims.verify_flow_totp.
  - intros Hreach. split.
    + now apply (reachable_pending_login cfg w Hreach).
    + intros Hsep Hcodes Hp Htext.
      rewrite (VerifyClaims.verify_flow_totp cfg env token_in w He Hp).
      destruct (TableProps.reachable_row_on_file cfg w Hreach He) as [user Hu].
      fold email in Hu |- *. rewrite Hu.
      rewrite separated_text_is_no_code; [reflexivity | | exact Htext].
      intros i Hi. now apply (Hcodes user i).
Qed.

Lemma signature_path_reads_email_only_witness :
  let env := Sample.env 1700000060 true true in
  verify_flow (L := Sample.lib) Sample.cfg env Sample.login_token Sample.world1
  = (set_authenticated true;;
     audit (L := Sample.lib) Sample.cfg env "login_success"
       [("email", JStr "ana@example.com")];;
     raise RerunException) Sample.world1
  /\ verify_flow (L := Sample.lib) Sample.cfg env Sample.reset_token
       Sample.world1
     = (show (st_error "Código inválido");;
        audit (L := Sample.lib) Sample.cfg env "login_fail"
          [("submitted", JStr Sample.reset_token);
           ("email", JStr "ana@example.com")]) Sample.world1.
Proof.
  split.
  - destruct (signature_path_reads_email_only (L := Sample.lib) Sample.cfg
                (Sample.env 1700000060 true true) Sample.login_token
                Sample.world1 eq_refl) as [H _].
    destruct (H eq_refl) as [Hpayload _].
    apply (Hpayload "ana@example.com" (JStr "login")).
    vm_compute. reflexivity.
  - destruct (signature_path_reads_email_only (L := Sample.lib) Sample.cfg
                (Sample.env 1700000060 true true) Sample.reset_token
                Sample.world1 eq_refl) as (_ & _ & H).
    destruct (H VerifyClaims.sample_world1_reachable) as [_ Hother].
    apply Hother.
    + exact SampleFacts.encode_no_sep.
    + intros user i Hu Hi. vm_compute in Hu. injection Hu as <-.
      assert (i = -1 \/ i = 0 \/ i = 1) as [-> | [-> | ->]] by lia;
        vm_compute; reflexivity.
    + vm_compute. discriminate.
    + vm_compute. discriminate.
Defined.

(** C9 as stated fails: this session was reached by a request for
    [ana@example.com]; the submitted token is signed under the key, one
    minute old, and carries that email with the purpose [reset]; it is not
    the pending token, so the call refuses it as a wrong one-time code.  In
    no session reached by runs of the script is the pending token one of
    another purpose. *)
Lemma signed_token_of_other_purpose_refused :
  let env := Sample.env 1700000060 true true in
  let r := verify_flow (L := Sample.lib) Sample.cfg env Sample.reset_token
             Sample.world1 in
  (reachable (L := Sample.lib) Sample.cfg Sample.world1
   /\ email (session_state Sample.world1) = "ana@example.com"
   /\ serializer_loads (L := Sample.lib) "s3cret" Sample.reset_token 600
        1700000060
      = Return (JDict [("email", JStr "ana@example.com");
                       ("purpose", JStr "reset")])
   /\ fst r = Return tt
   /\ authenticated (session_state (snd r)) = false
   /\ last (page (snd r)) = Some (st_error "Código inválido")
   /\ AUDIT_FILE (snd r)
      = AUDIT_FILE Sample.world1 ++
        [audit_entry (L := Sample.lib) Sample.cfg env "login_fail"
           [("submitted", JStr Sample.reset_token);
            ("email", JStr "ana@example.com")]])
  /\ (forall w,
        reachable (L := Sample.lib) Sample.cfg w ->
        truthy_str (email (session_state w)) = true ->
        exists issued,
          pending_token (session_state w)
          = serializer_dumps (L := Sample.lib) "s3cret"
              (JDict [("email", JStr (email (session_state w)));
                      ("purpose", JStr "login")])
              issued).
Proof.
  split.
  - split; [exact VerifyClaims.sample_world1_reachable|].
    vm_compute. repeat split; reflexivity.
  - intros w Hreach He.
    exact (reachable_pending_login (L := Sample.lib) Sample.cfg w Hreach He).
Qed.

End PathClaims.
